(** * Token Trackr: pricing, ingestion and aggregation

    A shallow embedding of the cost-calculation and aggregation pipeline of
    the Token Trackr backend:

    - [backend/core/pricing.py]       the pricing engine,
    - [backend/services/usage.py]     the usage service,
    - [backend/api/endpoints/usage.py] the batch ingestion endpoint,
    - [backend/jobs/aggregation.py]   the daily and monthly aggregation jobs.

    Python's [decimal.Decimal] is modelled as a coefficient and an exponent
    with the arithmetic of the default context (28 significant digits,
    ROUND_HALF_EVEN).  Dictionaries whose iteration order is observable are
    association lists, the summary tables are finite maps keyed by their
    uniqueness constraint, and the raw event table is a list. *)

From Stdlib Require Import ZArith Lia Bool Ascii String.
From stdpp Require Import gmap strings list fin_maps sorting.
From Equations Require Import Equations.

Local Open Scope Z_scope.

(** ** Decimal arithmetic *)

Module Dec.

(** A finite decimal number [coef * 10 ^ expo].  The sign lives in the
    coefficient, so the two zeros of Python's Decimal are identified; NaN and
    the infinities are not represented, nor are the limits Emin and Emax of
    the exponent (999999 in the default context). *)
Record Decimal : Type := mkDec { coef : Z; expo : Z }.

#[export] Instance Decimal_eq_dec : EqDecision Decimal.
Proof. solve_decision. Defined.

(** Precision of the default context. *)
Definition prec : Z := 28.

Fixpoint ndigits_aux (fuel : nat) (n : Z) : Z :=
  match fuel with
  | O => 1
  | S f => if n <? 10 then 1 else 1 + ndigits_aux f (n / 10)
  end.

(** [len(self._int)]: the number of decimal digits of a magnitude; the
    magnitude 0 is written with the one digit "0". *)
Definition ndigits (n : Z) : Z := ndigits_aux (Z.to_nat (Z.log2 n)) n.

(** Quotient of the magnitude [n] by [d], rounded half to even. *)
Definition round_half_even (n d : Z) : Z :=
  let q := n / d in
  let r := n mod d in
  if 2 * r <? d then q
  else if d <? 2 * r then q + 1
  else if Z.even q then q else q + 1.

Definition with_sign (c m : Z) : Z := if c <? 0 then - m else m.

(** [Decimal._fix]: round to the precision of the context. *)
Definition dec_fix (d : Decimal) : Decimal :=
  let m := Z.abs (coef d) in
  let len := ndigits m in
  if len <=? prec then d
  else
    let k := len - prec in
    let q := round_half_even m (10 ^ k) in
    if ndigits q <=? prec
    then mkDec (with_sign (coef d) q) (expo d + k)
    else mkDec (with_sign (coef d) (q / 10)) (expo d + k + 1).

(** Exact product and sum; the sum is carried at the smaller exponent. *)
Definition mul_exact (a b : Decimal) : Decimal :=
  mkDec (coef a * coef b) (expo a + expo b).

Definition add_exact (a b : Decimal) : Decimal :=
  let e := Z.min (expo a) (expo b) in
  mkDec (coef a * 10 ^ (expo a - e) + coef b * 10 ^ (expo b - e)) e.

Definition neg (a : Decimal) : Decimal := mkDec (- coef a) (expo a).

(** [Decimal.__mul__], [__add__] and [__sub__]: the exact result, rounded. *)
Definition mul (a b : Decimal) : Decimal := dec_fix (mul_exact a b).
Definition add (a b : Decimal) : Decimal := dec_fix (add_exact a b).
Definition sub (a b : Decimal) : Decimal := add a (neg b).

(** The loop of [__truediv__] that brings an exact quotient as close to the
    ideal exponent as its trailing zeros allow. *)
Fixpoint strip_zeros (fuel : nat) (c e ideal : Z) : Z * Z :=
  match fuel with
  | O => (c, e)
  | S f =>
      if (e <? ideal) && (c mod 10 =? 0)
      then strip_zeros f (c / 10) (e + 1) ideal
      else (c, e)
  end.

(** [Decimal.__truediv__].  A zero divisor signals DivisionByZero or
    InvalidOperation, both trapped in the default context: [None]. *)
Definition div (a b : Decimal) : option Decimal :=
  if coef b =? 0 then None
  else if coef a =? 0 then Some (dec_fix (mkDec 0 (expo a - expo b)))
  else
    let m1 := Z.abs (coef a) in
    let m2 := Z.abs (coef b) in
    let shift := ndigits m2 - ndigits m1 + prec + 1 in
    let e := expo a - expo b - shift in
    let num := if 0 <=? shift then m1 * 10 ^ shift else m1 in
    let den := if 0 <=? shift then m2 else m2 * 10 ^ (- shift) in
    let q := num / den in
    let r := num mod den in
    let ce :=
      if r =? 0
      then strip_zeros (Z.to_nat (expo a - expo b - e)) q e (expo a - expo b)
      else (if q mod 5 =? 0 then q + 1 else q, e) in
    Some (dec_fix (mkDec (with_sign (coef a * coef b) (fst ce)) (snd ce))).

(** [Decimal._rescale(exp, ROUND_HALF_EVEN)]. *)
Definition rescale (d : Decimal) (e : Z) : Decimal :=
  if e <=? expo d
  then mkDec (coef d * 10 ^ (expo d - e)) e
  else mkDec (with_sign (coef d)
                (round_half_even (Z.abs (coef d)) (10 ^ (e - expo d)))) e.

(** [Decimal.quantize(Decimal((0, (1,), e)))].  A result that needs more
    digits than the precision signals InvalidOperation: [None]. *)
Definition quantize (d : Decimal) (e : Z) : option Decimal :=
  if coef d =? 0 then Some (mkDec 0 e)
  else if prec <? (expo d + ndigits (Z.abs (coef d)) - 1) - e + 1 then None
  else
    let ans := rescale d e in
    if prec <? ndigits (Z.abs (coef ans)) then None else Some (dec_fix ans).

(** [Decimal(n)] for a Python integer. *)
Definition of_int (n : Z) : Decimal := mkDec n 0.

(** Comparisons are by value. *)
Definition is_pos (d : Decimal) : bool := 0 <? coef d.
Definition is_zero (d : Decimal) : bool := coef d =? 0.

(** A number is within the precision of the context when its coefficient
    has at most 28 digits. *)
Definition fits (d : Decimal) : Prop := Z.abs (coef d) < 10 ^ prec.

(** [a] and [b] denote the same number, [a] with [j] fewer trailing zeros. *)
Definition reduces (a b : Decimal) : Prop :=
  exists j, 0 <= j /\ coef b = coef a * 10 ^ j /\ expo a = expo b + j.

End Dec.

Import Dec.






(** ** Python dictionaries and strings *)

(** A [dict] with string keys, in insertion order; iteration order is
    observable in [get_model_pricing].  [dict_get] is [d.get(k)]. *)
Fixpoint dict_get {V : Type} (k : string) (d : list (string * V)) : option V :=
  match d with
  | [] => None
  | (k', v) :: d' => if decide (k = k') then Some v else dict_get k d'
  end.

(** [str.lower] on the ASCII letters; strings are sequences of bytes, and
    bytes outside A-Z are left as they are. *)
Definition lower_ascii (a : Ascii.ascii) : Ascii.ascii :=
  let n := Ascii.N_of_ascii a in
  if ((65 <=? n) && (n <=? 90))%N then Ascii.ascii_of_N (n + 32) else a.

Fixpoint lower (s : string) : string :=
  match s with
  | EmptyString => EmptyString
  | String a r => String (lower_ascii a) (lower r)
  end.

(** [s.startswith(p)]. *)
Definition startswith (s p : string) : bool := String.prefix p s.

(** ** The pricing engine ([backend/core/pricing.py]) *)

Module Pricing.

(** The pricing configuration is a dictionary of dictionaries of
    dictionaries of numbers: provider -> model -> price field, with the
    reserved top-level keys [defaults] (provider -> price field) and
    [tenant_overrides] (tenant -> [discount_percent]).  Each number is held
    as the Decimal that [Decimal(str(.))] makes of it. *)
Definition Entry : Type := list (string * Decimal).
Definition Table : Type := list (string * Entry).
Definition PricingData : Type := list (string * Table).

Definition _get_default_pricing : PricingData :=
  [ ("defaults",
      [ ("bedrock", [ ("input_per_1k", mkDec 2 (-3)); ("output_per_1k", mkDec 6 (-3)) ]);
        ("azure_openai", [ ("input_per_1k", mkDec 2 (-3)); ("output_per_1k", mkDec 6 (-3)) ]);
        ("gemini", [ ("input_per_1k", mkDec 1 (-3)); ("output_per_1k", mkDec 3 (-3)) ]) ]) ]%string.

Definition provider_mapping : list (string * string) :=
  [ ("bedrock", "bedrock");
    ("aws_bedrock", "bedrock");
    ("azure_openai", "azure_openai");
    ("azure", "azure_openai");
    ("gemini", "gemini");
    ("google", "gemini");
    ("google_gemini", "gemini") ]%string.

Definition _normalize_provider (provider : string) : string :=
  default (lower provider) (dict_get (lower provider) provider_mapping).

(** [Decimal(str(pricing.get(field, dflt)))]. *)
Definition price_field (pricing : Entry) (field : string) (dflt : Decimal) : Decimal :=
  default dflt (dict_get field pricing).

Definition prices_of (pricing : Entry) (dflt_in dflt_out : Decimal) : Decimal * Decimal :=
  (price_field pricing "input_per_1k" dflt_in,
   price_field pricing "output_per_1k" dflt_out).

(** The loop over [provider_pricing.items()]: the first key that the model
    name starts with, or that starts with the model name. *)
Fixpoint partial_match (model : string) (provider_pricing : Table) : option Entry :=
  match provider_pricing with
  | [] => None
  | (model_key, pricing) :: rest =>
      if startswith model model_key || startswith model_key model
      then Some pricing
      else partial_match model rest
  end.

Definition get_model_pricing (data : PricingData) (provider model : string)
  : Decimal * Decimal :=
  let provider_key := _normalize_provider provider in
  let provider_pricing := default [] (dict_get provider_key data) in
  match dict_get model provider_pricing with
  | Some pricing => prices_of pricing (mkDec 0 0) (mkDec 0 0)
  | None =>
      match partial_match model provider_pricing with
      | Some pricing => prices_of pricing (mkDec 0 0) (mkDec 0 0)
      | None =>
          let defaults :=
            default [] (dict_get provider_key (default [] (dict_get "defaults" data))) in
          prices_of defaults (mkDec 2 (-3)) (mkDec 6 (-3))
      end
  end.

Definition _get_tenant_discount (data : PricingData) (tenant_id : string) : Decimal :=
  let overrides := default [] (dict_get "tenant_overrides" data) in
  let tenant_config := default [] (dict_get tenant_id overrides) in
  price_field tenant_config "discount_percent" (mkDec 0 0).

(** [self._get_tenant_discount(tenant_id) if tenant_id else Decimal("0")]:
    [None] and the empty string are both falsy. *)
Definition tenant_discount (data : PricingData) (tenant_id : option string) : Decimal :=
  match tenant_id with
  | None => mkDec 0 0
  | Some t => if decide (t = EmptyString) then mkDec 0 0 else _get_tenant_discount data t
  end.

(** [None] stands for the exception a Decimal operation raises. *)
Definition calculate_cost (data : PricingData) (provider model : string)
    (prompt_tokens completion_tokens : Z) (tenant_id : option string)
  : option Decimal :=
  let '(input_price, output_price) := get_model_pricing data provider model in
  let discount := tenant_discount data tenant_id in
  p ← div (of_int prompt_tokens) (of_int 1000);
  let input_cost := mul p input_price in
  c ← div (of_int completion_tokens) (of_int 1000);
  let output_cost := mul c output_price in
  let total_cost := add input_cost output_cost in
  total_cost ←
    (if is_pos discount
     then f ← div discount (of_int 100);
          Some (mul total_cost (sub (of_int 1) f))
     else Some total_cost);
  quantize total_cost (-10).

End Pricing.

Import Pricing.

(** ** Dates ([datetime.date]) *)

Module Calendar.

(** A date is its proleptic Gregorian ordinal ([date.toordinal()]), so
    adding a [timedelta] of days is addition and comparison is [<=].
    Python restricts years to 1..9999; the model leaves them unbounded. *)
Abbreviation date := Z (only parsing).

Definition is_leap (y : Z) : bool :=
  (y mod 4 =? 0) && (negb (y mod 100 =? 0) || (y mod 400 =? 0)).

Definition days_before_year (y : Z) : Z :=
  let y1 := y - 1 in y1 * 365 + y1 / 4 - y1 / 100 + y1 / 400.

Definition days_in_month (y m : Z) : Z :=
  if m =? 2 then (if is_leap y then 29 else 28)
  else if (m =? 4) || (m =? 6) || (m =? 9) || (m =? 11) then 30
  else 31.

Definition days_before_month (y m : Z) : Z :=
  nth (Z.to_nat m) [0; 0; 31; 59; 90; 120; 151; 181; 212; 243; 273; 304; 334] 0
  + (if (2 <? m) && is_leap y then 1 else 0).

(** [date(year, month, day)]; [None] is the ValueError of an impossible
    month or day. *)
Definition mkdate (y m d : Z) : option date :=
  if (1 <=? m) && (m <=? 12) && (1 <=? d) && (d <=? days_in_month y m)
  then Some (days_before_year y + days_before_month y m + d)
  else None.

(** [_ord2ymd] of the datetime module. *)
Definition ord2ymd (n : Z) : Z * Z * Z :=
  let n := n - 1 in
  let n400 := n / 146097 in
  let n := n mod 146097 in
  let n100 := n / 36524 in
  let n := n mod 36524 in
  let n4 := n / 1461 in
  let n := n mod 1461 in
  let n1 := n / 365 in
  let n := n mod 365 in
  let year := n400 * 400 + 1 + n100 * 100 + n4 * 4 + n1 in
  if (n1 =? 4) || (n100 =? 4) then (year - 1, 12, 31)
  else
    let leapyear := (n1 =? 3) && (negb (n4 =? 24) || (n100 =? 3)) in
    let month := Z.shiftr (n + 50) 5 in
    let preceding :=
      nth (Z.to_nat month) [0; 0; 31; 59; 90; 120; 151; 181; 212; 243; 273; 304; 334] 0
      + (if (2 <? month) && leapyear then 1 else 0) in
    if n <? preceding
    then
      let month' := month - 1 in
      let preceding' :=
        preceding
        - (nth (Z.to_nat month') [0; 31; 28; 31; 30; 31; 30; 31; 31; 30; 31; 30; 31] 0
           + (if (month' =? 2) && leapyear then 1 else 0)) in
      (year, month', n - preceding' + 1)
    else (year, month, n - preceding + 1).

Definition year_of (d : date) : Z := fst (fst (ord2ymd d)).
Definition month_of (d : date) : Z := snd (fst (ord2ymd d)).

(** A [datetime]: the calendar date and the time of day in microseconds. *)
Record datetime : Type := mkDatetime { dt_date : date; dt_time : Z }.

#[export] Instance datetime_eq_dec : EqDecision datetime.
Proof. solve_decision. Defined.

End Calendar.

Import Calendar.

(** ** Tables ([backend/models/usage.py]) *)

Module Models.

(** A [NUMERIC(20, 10)] column holds a fixed-point number with 10
    fractional digits: here the integer number of units of 1E-10.  The
    range checks of the columns (BIGINT, NUMERIC overflow, string lengths)
    are not modelled. *)
Abbreviation Numeric10 := Z (only parsing).

(** A row of [token_usage_raw].  The audit columns of [TimestampMixin] are
    left out; [id] stands for the generated UUID. *)
Record TokenUsageRaw : Type := mkRaw {
  id : Z;
  tenant_id : string;
  provider : string;
  model : string;
  prompt_tokens : Z;
  completion_tokens : Z;
  total_tokens : Z;
  calculated_cost : Numeric10;
  timestamp : datetime;
  latency_ms : option Z;
  cloud_provider : string;
  hostname : option string;
  instance_id : option string;
  k8s_pod : option string;
  k8s_namespace : option string;
  k8s_node : option string;
  metadata_json : option string
}.

(** The aggregated metrics of a row of [tenant_daily_summary]; the row is
    found under its key, the columns of [uq_daily_summary]. *)
Record DailyMetrics : Type := mkDaily {
  d_total_requests : Z;
  d_total_prompt_tokens : Z;
  d_total_completion_tokens : Z;
  d_total_tokens : Z;
  d_total_cost : Numeric10;
  d_avg_latency_ms : option Z
}.

(** (tenant_id, date, provider, model, cloud_provider) *)
Abbreviation DailyKey := (string * Z * string * string * string)%type (only parsing).
Abbreviation DailyTable := (gmap (string * Z * string * string * string) DailyMetrics) (only parsing).

Record MonthlyMetrics : Type := mkMonthly {
  m_total_requests : Z;
  m_total_prompt_tokens : Z;
  m_total_completion_tokens : Z;
  m_total_tokens : Z;
  m_total_cost : Numeric10
}.

(** (tenant_id, year, month, provider, model), the columns of
    [uq_monthly_summary]. *)
Abbreviation MonthlyKey := (string * Z * Z * string * string)%type (only parsing).
Abbreviation MonthlyTable := (gmap (string * Z * Z * string * string) MonthlyMetrics) (only parsing).

End Models.

Import Models.

(** ** SQL aggregates *)

Module Sql.

(** [SUM] is NULL over no rows. *)
Definition sum_int (l : list Z) : option Z :=
  match l with
  | [] => None
  | _ => Some (foldr Z.add 0 l)
  end.

(** What Python reads from a NUMERIC(20, 10) value. *)
Definition of_numeric (u : Numeric10) : Decimal := mkDec u (-10).

(** Quotient of the magnitude [n] by [d], rounded half away from zero. *)
Definition round_half_up (n d : Z) : Z := (2 * n + d) / (2 * d).

(** What a NUMERIC(20, 10) column stores of a Decimal: digits beyond the
    tenth are rounded, half away from zero. *)
Definition to_numeric (d : Decimal) : Numeric10 :=
  if -10 <=? expo d
  then coef d * 10 ^ (expo d + 10)
  else with_sign (coef d) (round_half_up (Z.abs (coef d)) (10 ^ (-10 - expo d))).

(** [SUM] over a NUMERIC column is exact. *)
Definition sum_numeric (l : list Numeric10) : option Decimal :=
  match l with
  | [] => None
  | _ => Some (of_numeric (foldr Z.add 0 l))
  end.

(** The quotient [avg_sum / avg_count], [avg_count > 0]. *)
Record Average : Type := mkAvg { avg_sum : Z; avg_count : Z }.

(** [AVG] ignores NULLs and is NULL when nothing is left.  The quotient is
    kept exact; PostgreSQL rounds it to at least 16 fractional digits. *)
Definition avg_int (l : list (option Z)) : option Average :=
  let present := omap (fun x => x) l in
  match present with
  | [] => None
  | _ => Some (mkAvg (foldr Z.add 0 present) (Z.of_nat (length present)))
  end.

End Sql.

(** ** Python truthiness *)

(** [x or 0] for an integer that may be None. *)
Definition or_zero (x : option Z) : Z :=
  match x with
  | Some v => if v =? 0 then 0 else v
  | None => 0
  end.

(** [x or Decimal("0")]. *)
Definition or_decimal_zero (x : option Decimal) : Decimal :=
  match x with
  | Some v => if is_zero v then mkDec 0 0 else v
  | None => mkDec 0 0
  end.

(** [int(x) if x else None] for an average: zero is falsy, and [int]
    truncates toward zero. *)
Definition int_if_truthy (x : option Sql.Average) : option Z :=
  match x with
  | Some a => if Sql.avg_sum a =? 0 then None
              else Some (Z.quot (Sql.avg_sum a) (Sql.avg_count a))
  | None => None
  end.

(** ** Request and response schemas ([backend/schemas/usage.py]) *)

Module Schemas.

Record K8sMetadata : Type := mkK8s {
  pod : option string;
  namespace : option string;
  node : option string
}.

Record HostMetadata : Type := mkHost {
  h_hostname : option string;
  h_cloud_provider : string;
  h_instance_id : option string;
  k8s : option K8sMetadata
}.


(** The free-form metadata, a dictionary from keys to values that are
    already JSON text. *)
Abbreviation Metadata := (list (string * string)).

Record UsageEvent : Type := mkEvent {
  ev_tenant_id : string;
  ev_provider : string;
  ev_model : string;
  ev_prompt_tokens : Z;
  ev_completion_tokens : Z;
  ev_timestamp : datetime;
  ev_latency_ms : option Z;
  ev_host : option HostMetadata;
  ev_metadata : option Metadata
}.

(** The request body before validation: the timestamp is still a string,
    or already a datetime. *)
Record UsagePayload : Type := mkPayload {
  pl_tenant_id : string;
  pl_provider : string;
  pl_model : string;
  pl_prompt_tokens : Z;
  pl_completion_tokens : Z;
  pl_timestamp : string + datetime;
  pl_latency_ms : option Z;
  pl_host : option HostMetadata;
  pl_metadata : option Metadata
}.

(** [v.replace("Z", "+00:00")] *)
Fixpoint replace_Z (v : string) : string :=
  match v with
  | EmptyString => EmptyString
  | String a r =>
      if Ascii.eqb a "Z"%char then ("+00:00" ++ replace_Z r)%string
      else String a (replace_Z r)
  end.

(** The validator [parse_timestamp]; [fromisoformat] is the parser of the
    standard library, [None] where it raises. *)
Definition parse_timestamp (fromisoformat : string -> option datetime)
    (v : string + datetime) : option datetime :=
  match v with
  | inl s => fromisoformat (replace_Z s)
  | inr dt => Some dt
  end.

Definition len (s : string) : Z := Z.of_nat (String.length s).

Definition provider_ok (p : string) : bool :=
  bool_decide (p ∈ ["bedrock"; "azure_openai"; "gemini"]%string).

Definition cloud_provider_ok (p : string) : bool :=
  bool_decide (p ∈ ["aws"; "azure"; "gcp"; "on-prem"; "unknown"]%string).

Definition host_ok (h : option HostMetadata) : bool :=
  match h with
  | Some h => cloud_provider_ok (h_cloud_provider h)
  | None => true
  end.

Definition latency_ok (l : option Z) : bool :=
  match l with
  | Some v => 0 <=? v
  | None => true
  end.

(** The [Field] constraints of [UsageEvent]. *)
Definition fields_ok (p : UsagePayload) : bool :=
  (1 <=? len (pl_tenant_id p)) && (len (pl_tenant_id p) <=? 255)
  && provider_ok (pl_provider p)
  && (1 <=? len (pl_model p)) && (len (pl_model p) <=? 255)
  && (0 <=? pl_prompt_tokens p)
  && (0 <=? pl_completion_tokens p)
  && latency_ok (pl_latency_ms p)
  && host_ok (pl_host p).

(** Validation of a request body into a [UsageEvent]; [None] is the
    validation error. *)
Definition validate (fromisoformat : string -> option datetime)
    (p : UsagePayload) : option UsageEvent :=
  if fields_ok p then
    ts ← parse_timestamp fromisoformat (pl_timestamp p);
    Some (mkEvent (pl_tenant_id p) (pl_provider p) (pl_model p)
            (pl_prompt_tokens p) (pl_completion_tokens p) ts
            (pl_latency_ms p) (pl_host p) (pl_metadata p))
  else None.




End Schemas.

Import Schemas.

(** ** The usage service ([backend/services/usage.py]) *)

Module UsageService.





(** [Decimal.__radd__] lets [sum] start from the integer 0. *)
Definition py_sum_decimal (l : list Decimal) : Decimal := foldl add (of_int 0) l.
Definition py_sum_int (l : list Z) : Z := foldl Z.add 0 l.


Definition row_tenant (row : (string * Z * string * string * string) * DailyMetrics) : string :=
  let '((t, _, _, _, _), _) := row in t.

Definition row_date (row : (string * Z * string * string * string) * DailyMetrics) : date :=
  let '((_, d, _, _, _), _) := row in d.

(** [ORDER BY date DESC]. *)
Definition newer_first (r1 r2 : (string * Z * string * string * string) * DailyMetrics) : Prop :=
  row_date r2 <= row_date r1.

#[export] Instance newer_first_dec r1 r2 : Decision (newer_first r1 r2).
Proof. unfold newer_first. apply _. Defined.



End UsageService.

Import UsageService.

(** ** The batch endpoint ([backend/api/endpoints/usage.py]) *)

Module Endpoints.





End Endpoints.

Import Endpoints.

(** ** The aggregation jobs ([backend/jobs/aggregation.py]) *)

Module DailyAggregationJob.

(** A row of the GROUP BY query over [token_usage_raw]. *)
Record QueryRow : Type := mkQueryRow {
  q_tenant_id : string;
  q_provider : string;
  q_model : string;
  q_cloud_provider : string;
  q_total_requests : Z;
  q_total_prompt_tokens : option Z;
  q_total_completion_tokens : option Z;
  q_total_tokens : option Z;
  q_total_cost : option Decimal;
  q_avg_latency_ms : option Sql.Average
}.

(** The GROUP BY columns. *)
Definition group_of (e : TokenUsageRaw) : string * string * string * string :=
  (tenant_id e, provider e, model e, cloud_provider e).

(** The events of one group on one date:
    [WHERE date(timestamp) = target_date] within the group. *)
Definition partition (target_date : date) (raw : list TokenUsageRaw)
    (g : string * string * string * string) : list TokenUsageRaw :=
  filter (fun e => group_of e = g)
    (filter (fun e => dt_date (timestamp e) = target_date) raw).

Definition aggregate (g : string * string * string * string)
    (events : list TokenUsageRaw) : QueryRow :=
  let '(t, p, m, c) := g in
  mkQueryRow t p m c
    (Z.of_nat (length events))
    (Sql.sum_int (map prompt_tokens events))
    (Sql.sum_int (map completion_tokens events))
    (Sql.sum_int (map total_tokens events))
    (Sql.sum_numeric (map calculated_cost events))
    (Sql.avg_int (map latency_ms events)).

(** The SELECT of [run]: one row per group that has an event on the date,
    the groups in order of first appearance. *)
Definition query (target_date : date) (raw : list TokenUsageRaw) : list QueryRow :=
  map (fun g => aggregate g (partition target_date raw g))
    (remove_dups
       (map group_of (filter (fun e => dt_date (timestamp e) = target_date) raw))).

(** The [values(...)] of the INSERT. *)
Definition insert_values (row : QueryRow) : DailyMetrics :=
  mkDaily (q_total_requests row)
    (or_zero (q_total_prompt_tokens row))
    (or_zero (q_total_completion_tokens row))
    (or_zero (q_total_tokens row))
    (Sql.to_numeric (or_decimal_zero (q_total_cost row)))
    (int_if_truthy (q_avg_latency_ms row)).

(** The [set_] of ON CONFLICT DO UPDATE, applied to the row in conflict. *)
Definition conflict_set (old : DailyMetrics) (row : QueryRow) : DailyMetrics :=
  {| d_total_requests := q_total_requests row;
     d_total_prompt_tokens := or_zero (q_total_prompt_tokens row);
     d_total_completion_tokens := or_zero (q_total_completion_tokens row);
     d_total_tokens := or_zero (q_total_tokens row);
     d_total_cost := Sql.to_numeric (or_decimal_zero (q_total_cost row));
     d_avg_latency_ms := int_if_truthy (q_avg_latency_ms row) |}.

Definition key_of (target_date : date) (row : QueryRow)
  : string * Z * string * string * string :=
  (q_tenant_id row, target_date, q_provider row, q_model row, q_cloud_provider row).

Definition upsert (table : DailyTable) (target_date : date) (row : QueryRow) : DailyTable :=
  match table !! key_of target_date row with
  | None => <[key_of target_date row := insert_values row]> table
  | Some old => <[key_of target_date row := conflict_set old row]> table
  end.

(** [run]; [today] is [date.today()].  Returns the number of rows written
    and the table after the commit. *)
Definition run (today : date) (raw : list TokenUsageRaw) (table : DailyTable)
    (target_date : option date) : Z * DailyTable :=
  let target_date := default (today - 1) target_date in
  let rows := query target_date raw in
  match rows with
  | [] => (0, table)
  | _ =>
      foldl (fun '(count, table) row => (count + 1, upsert table target_date row))
        (0, table) rows
  end.

(** The loop of [backfill], from [current] on. *)
Equations? backfill_loop (today : date) (raw : list TokenUsageRaw)
    (current end_date : date) (total : Z) (table : DailyTable)
  : Z * DailyTable by wf (Z.to_nat (end_date + 1 - current)) lt :=
  backfill_loop today raw current end_date total table
    with decide (current <= end_date) => {
    | left _ =>
        backfill_loop today raw (current + 1) end_date
          (total + fst (run today raw table (Some current)))
          (snd (run today raw table (Some current)));
    | right _ => (total, table) }.
Proof. lia. Qed.

Definition backfill (today : date) (raw : list TokenUsageRaw) (table : DailyTable)
    (start_date end_date : date) : Z * DailyTable :=
  backfill_loop today raw start_date end_date 0 table.

End DailyAggregationJob.

Module MonthlyAggregationJob.

(** A row of the GROUP BY query over [tenant_daily_summary]. *)
Record QueryRow : Type := mkQueryRow {
  q_tenant_id : string;
  q_provider : string;
  q_model : string;
  q_total_requests : option Z;
  q_total_prompt_tokens : option Z;
  q_total_completion_tokens : option Z;
  q_total_tokens : option Z;
  q_total_cost : option Decimal
}.

(** The GROUP BY columns: the cloud provider is not among them. *)
Definition group_of (row : (string * Z * string * string * string) * DailyMetrics)
  : string * string * string :=
  let '((t, _, p, m, _), _) := row in (t, p, m).

(** The daily rows of one group between two dates:
    [WHERE date >= first_day AND date <= last_day] within the group. *)
Definition partition (first_day last_day : date) (daily : DailyTable)
    (g : string * string * string)
  : list ((string * Z * string * string * string) * DailyMetrics) :=
  filter (fun row => group_of row = g)
    (filter (fun row => first_day <= row_date row /\ row_date row <= last_day)
       (map_to_list daily)).

Definition aggregate (g : string * string * string)
    (rows : list ((string * Z * string * string * string) * DailyMetrics)) : QueryRow :=
  let '(t, p, m) := g in
  mkQueryRow t p m
    (Sql.sum_int (map (fun r => d_total_requests (snd r)) rows))
    (Sql.sum_int (map (fun r => d_total_prompt_tokens (snd r)) rows))
    (Sql.sum_int (map (fun r => d_total_completion_tokens (snd r)) rows))
    (Sql.sum_int (map (fun r => d_total_tokens (snd r)) rows))
    (Sql.sum_numeric (map (fun r => d_total_cost (snd r)) rows)).

Definition query (first_day last_day : date) (daily : DailyTable) : list QueryRow :=
  map (fun g => aggregate g (partition first_day last_day daily g))
    (remove_dups
       (map group_of
          (filter (fun row => first_day <= row_date row /\ row_date row <= last_day)
             (map_to_list daily)))).

Definition insert_values (row : QueryRow) : MonthlyMetrics :=
  mkMonthly (or_zero (q_total_requests row))
    (or_zero (q_total_prompt_tokens row))
    (or_zero (q_total_completion_tokens row))
    (or_zero (q_total_tokens row))
    (Sql.to_numeric (or_decimal_zero (q_total_cost row))).

Definition conflict_set (old : MonthlyMetrics) (row : QueryRow) : MonthlyMetrics :=
  {| m_total_requests := or_zero (q_total_requests row);
     m_total_prompt_tokens := or_zero (q_total_prompt_tokens row);
     m_total_completion_tokens := or_zero (q_total_completion_tokens row);
     m_total_tokens := or_zero (q_total_tokens row);
     m_total_cost := Sql.to_numeric (or_decimal_zero (q_total_cost row)) |}.

Definition key_of (year month : Z) (row : QueryRow)
  : string * Z * Z * string * string :=
  (q_tenant_id row, year, month, q_provider row, q_model row).

Definition upsert (table : MonthlyTable) (year month : Z) (row : QueryRow) : MonthlyTable :=
  match table !! key_of year month row with
  | None => <[key_of year month row := insert_values row]> table
  | Some old => <[key_of year month row := conflict_set old row]> table
  end.

(** The first and the last day of a month, as [run] computes them. *)
Definition month_bounds (year month : Z) : option (date * date) :=
  first_day ← mkdate year month 1;
  next ← (if month =? 12 then mkdate (year + 1) 1 1 else mkdate year (month + 1) 1);
  Some (first_day, next - 1).

(** The month before the one [today] lies in. *)
Definition previous_month (today : date) : option (Z * Z) :=
  first_of_month ← mkdate (year_of today) (month_of today) 1;
  let last_month := first_of_month - 1 in
  Some (year_of last_month, month_of last_month).

(** [run]; [None] is the ValueError of [date(year, month, 1)]. *)
Definition run (today : date) (daily : DailyTable) (table : MonthlyTable)
    (year month : option Z) : option (Z * MonthlyTable) :=
  ym ← match year, month with
       | Some y, Some m => Some (y, m)
       | _, _ => previous_month today
       end;
  let '(year, month) := ym in
  bounds ← month_bounds year month;
  let '(first_day, last_day) := bounds in
  let rows := query first_day last_day daily in
  match rows with
  | [] => Some (0, table)
  | _ =>
      Some (foldl (fun '(count, table) row => (count + 1, upsert table year month row))
              (0, table) rows)
  end.

End MonthlyAggregationJob.

(** ** The cost formula of the specification *)

Module CostSpec.

(** [n / 1000], exactly. *)
Definition per_thousand (n : Z) : Decimal := mkDec n (-3).

(** [(promptTokens/1000)*inputPrice + (completionTokens/1000)*outputPrice],
    in exact decimal arithmetic. *)
Definition base_cost (input_price output_price : Decimal) (p c : Z) : Decimal :=
  add_exact (mul_exact (per_thousand p) input_price)
            (mul_exact (per_thousand c) output_price).

(** [1 - D/100], exactly. *)
Definition discount_factor (D : Decimal) : Decimal :=
  add_exact (of_int 1) (neg (mkDec (coef D) (expo D - 2))).

Definition discounted (cost D : Decimal) : Decimal :=
  mul_exact cost (discount_factor D).

(** A number expressed to [n] fractional digits, rounded half to even. *)
Definition to_places (d : Decimal) (n : Z) : Decimal := rescale d (- n).

(** The discount percentage configured for a tenant, if there is one. *)
Definition configured_discount (data : PricingData) (tenant_id : option string)
  : option Decimal :=
  t ← tenant_id;
  overrides ← dict_get "tenant_overrides" data;
  config ← dict_get t overrides;
  dict_get "discount_percent" config.

(** The cost as the specification words it: the discount is applied
    whenever the tenant has one configured. *)
Definition stated_cost (data : PricingData) (provider model : string)
    (p c : Z) (tenant_id : option string) : Decimal :=
  let base := base_cost (fst (get_model_pricing data provider model))
                        (snd (get_model_pricing data provider model)) p c in
  match configured_discount data tenant_id with
  | Some D => to_places (discounted base D) 10
  | None => to_places base 10
  end.

(** The same formula with the discount applied only when it is positive. *)
Definition undiscounted_unless_positive (input_price output_price D : Decimal)
    (p c : Z) : Decimal :=
  if is_pos D
  then discounted (base_cost input_price output_price p c) D
  else base_cost input_price output_price p c.

Definition exact_cost (data : PricingData) (provider model : string)
    (p c : Z) (tenant_id : option string) : Decimal :=
  to_places
    (undiscounted_unless_positive
       (fst (get_model_pricing data provider model))
       (snd (get_model_pricing data provider model))
       (tenant_discount data tenant_id) p c) 10.

(** No intermediate result of the formula needs more digits than the
    context has. *)
Definition within_precision (input_price output_price D : Decimal) (p c : Z) : Prop :=
  p < 10 ^ prec /\ c < 10 ^ prec
  /\ fits (mul_exact (per_thousand p) input_price)
  /\ fits (mul_exact (per_thousand c) output_price)
  /\ fits (base_cost input_price output_price p c)
  /\ (is_pos D = true ->
      fits D /\ fits (discount_factor D)
      /\ fits (discounted (base_cost input_price output_price p c) D))
  /\ fits (to_places (undiscounted_unless_positive input_price output_price D p c) 10).

End CostSpec.

Import CostSpec.

(** ** Pricing policies used as examples *)

Module Fixtures.

(** The built-in policy with a tenant whose discount is negative. *)
Definition surcharge_pricing : PricingData :=
  _get_default_pricing
  ++ [ ("tenant_overrides", [ ("t1", [ ("discount_percent", mkDec (-10) 0) ]) ]) ]%string.



End Fixtures.

Import Fixtures.

(** ** The resolution order of the specification *)

Module ResolutionSpec.






Definition global_default : Decimal * Decimal := (mkDec 2 (-3), mkDec 6 (-3)).


End ResolutionSpec.

Import ResolutionSpec.

(** ** What a response shows of an event *)

Module IngestionSpec.



End IngestionSpec.

Import IngestionSpec.

(** ** Events used as examples *)

Module Events.

(** 2024-01-15 10:00:00 *)
Definition jan15 : datetime := mkDatetime 738900 36000000000.

Definition sample_payload : UsagePayload :=
  mkPayload "t1" "bedrock" "anthropic.claude-3-sonnet" 1000 500
    (inl "2024-01-15T10:00:00Z"%string) None None None.

Definition sample_event : UsageEvent :=
  mkEvent "t1" "bedrock" "anthropic.claude-3-sonnet" 1000 500 jan15 None None None.



(** A parser that knows one timestamp. *)
Definition parse_jan15 (s : string) : option datetime :=
  if decide (s = "2024-01-15T10:00:00+00:00"%string) then Some jan15 else None.

End Events.

Import Events.

(** ** What the aggregation jobs are to compute *)

Module AggregationSpec.

Definition total (l : list Z) : Z := foldr Z.add 0 l.

(** The latencies that were reported. *)
Definition reported_latencies (events : list TokenUsageRaw) : list Z :=
  omap latency_ms events.

(** The metrics of a group of raw events, computed from scratch. *)
Definition fresh_daily (events : list TokenUsageRaw) : DailyMetrics :=
  {| d_total_requests := Z.of_nat (length events);
     d_total_prompt_tokens := total (map prompt_tokens events);
     d_total_completion_tokens := total (map completion_tokens events);
     d_total_tokens := total (map total_tokens events);
     d_total_cost := total (map calculated_cost events);
     d_avg_latency_ms :=
       if total (reported_latencies events) =? 0 then None
       else Some (Z.quot (total (reported_latencies events))
                         (Z.of_nat (length (reported_latencies events)))) |}.



(** The metrics of a group of daily rows, computed from scratch. *)
Definition fresh_monthly
    (rows : list ((string * Z * string * string * string) * DailyMetrics))
  : MonthlyMetrics :=
  {| m_total_requests := total (map (fun r => d_total_requests (snd r)) rows);
     m_total_prompt_tokens := total (map (fun r => d_total_prompt_tokens (snd r)) rows);
     m_total_completion_tokens :=
       total (map (fun r => d_total_completion_tokens (snd r)) rows);
     m_total_tokens := total (map (fun r => d_total_tokens (snd r)) rows);
     m_total_cost := total (map (fun r => d_total_cost (snd r)) rows) |}.

(** [d] is one of the days 1 .. [days_in_month] of the month. *)
Definition in_month (year month : Z) (d : date) : Prop :=
  1 <= d - (days_before_year year + days_before_month year month)
    <= days_in_month year month.

(** The daily rows of a tenant, provider and model that lie in a month,
    whatever their cloud provider. *)
Definition month_rows (daily : DailyTable) (year month : Z) (t p m : string)
  : list ((string * Z * string * string * string) * DailyMetrics) :=
  filter (fun row => MonthlyAggregationJob.group_of row = (t, p, m))
    (filter (fun row => in_month year month (row_date row)) (map_to_list daily)).

End AggregationSpec.

Import AggregationSpec.

(** ** Raw events used as examples *)

Module RawEvents.

Definition raw_row (i : Z) (t m : string) (tokens : Z) (cost : Numeric10)
    (day : date) (latency : option Z) : TokenUsageRaw :=
  mkRaw i t "bedrock" m tokens 0 tokens cost (mkDatetime day 0) latency
    "aws" None None None None None None.

(** Two groups on day 738900: the latencies of the first are all 0, those
    of the second average 3.5; and one event a day later. *)
Definition latency_rows : list TokenUsageRaw :=
  [ raw_row 0 "t1" "a" 10 20 738900 (Some 0);
    raw_row 1 "t1" "a" 20 40 738900 (Some 0);
    raw_row 2 "t1" "b" 30 60 738900 (Some 3);
    raw_row 3 "t1" "b" 40 80 738900 (Some 4);
    raw_row 4 "t1" "b" 50 100 738900 None;
    raw_row 5 "t1" "a" 60 120 738901 (Some 8) ]%string.

End RawEvents.

Import RawEvents.

(** ** Daily rows used as examples *)

Module DailyRows.

(** December 2023 for one tenant and model on two clouds, a row of the
    last of November, and a row of another model. *)
Definition december_rows : gmap (string * Z * string * string * string) DailyMetrics :=
  list_to_map
    [ (("t1", 738855, "bedrock", "a", "aws"), mkDaily 1 10 5 15 100 None);
      (("t1", 738885, "bedrock", "a", "aws"), mkDaily 2 20 10 30 200 (Some 7));
      (("t1", 738885, "bedrock", "a", "gcp"), mkDaily 4 40 20 60 400 None);
      (("t1", 738854, "bedrock", "a", "aws"), mkDaily 8 80 40 120 800 None);
      (("t1", 738860, "bedrock", "b", "aws"), mkDaily 16 160 80 240 1600 None) ]%string.

End DailyRows.

Import DailyRows.

(** ** More pricing policies used as examples *)

Module MoreFixtures.

(** The built-in policy with a tenant whose discount is 10 percent. *)
Definition gold_pricing : PricingData :=
  _get_default_pricing
  ++ [ ("tenant_overrides", [ ("gold", [ ("discount_percent", mkDec 10 0) ]) ]) ]%string.

End MoreFixtures.

Import MoreFixtures.

(** ** Strings without the letter Z *)

Module Timestamps.

Fixpoint has_Z (s : string) : bool :=
  match s with
  | EmptyString => false
  | String a r => Ascii.eqb a "Z"%char || has_Z r
  end.

End Timestamps.

Import Timestamps.

(** ** The calendar, part by part *)

Module CalendarSpec.

(** The month and the day of the month of the [n]-th day of a year,
    counted from 0: the last part of [_ord2ymd]. *)
Definition month_day (leapyear : bool) (n : Z) : Z * Z :=
  let month := Z.shiftr (n + 50) 5 in
  let preceding :=
    nth (Z.to_nat month) [0; 0; 31; 59; 90; 120; 151; 181; 212; 243; 273; 304; 334] 0
    + (if (2 <? month) && leapyear then 1 else 0) in
  if n <? preceding
  then
    let month' := month - 1 in
    let preceding' :=
      preceding
      - (nth (Z.to_nat month') [0; 31; 28; 31; 30; 31; 30; 31; 31; 30; 31; 30; 31] 0
         + (if (month' =? 2) && leapyear then 1 else 0)) in
    (month', n - preceding' + 1)
  else (month, n - preceding + 1).

End CalendarSpec.

(** ** The scheduler ([backend/jobs/scheduler.py]) *)

Module Scheduler.

(** The year and the month that [run_monthly_reports] passes to the
    report job: the month before the one [today] lies in. *)
Definition report_period (today : date) : Z * Z :=
  if month_of today =? 1
  then (year_of today - 1, 12)
  else (year_of today, month_of today - 1).

End Scheduler.

(** ** The list of a provider's models ([PricingEngine.get_provider_models]) *)

Module Listing.

(** An element of the list: the dictionary with the keys [model],
    [input_price_per_1k] and [output_price_per_1k]. *)
Record ModelPrices : Type := mkModelPrices {
  model : string;
  input_price_per_1k : Decimal;
  output_price_per_1k : Decimal
}.

(** The loop over [provider_pricing.items()].  An entry without
    [input_per_1k] is skipped; [pricing["output_per_1k"]] of an entry that
    has the input price and no output price is a KeyError, here [None]. *)
Fixpoint collect (provider_pricing : Table) : option (list ModelPrices) :=
  match provider_pricing with
  | [] => Some []
  | (model, pricing) :: rest =>
      match dict_get "input_per_1k" pricing with
      | Some input =>
          output ← dict_get "output_per_1k" pricing;
          models ← collect rest;
          Some (mkModelPrices model input output :: models)
      | None => collect rest
      end
  end.

(** The order of [sorted(models, key=lambda x: x["model"])]. *)
Definition by_model (x y : ModelPrices) : Prop := String.le (model x) (model y).

#[export] Instance by_model_dec x y : Decision (by_model x y).
Proof. unfold by_model. apply _. Defined.

Definition get_provider_models (data : PricingData) (provider : string)
  : option (list ModelPrices) :=
  let provider_key := _normalize_provider provider in
  let provider_pricing := default [] (dict_get provider_key data) in
  models ← collect provider_pricing;
  Some (merge_sort by_model models).

End Listing.

(** ** The provider endpoint ([backend/api/endpoints/providers.py]) *)

Module Providers.

Definition VALID_PROVIDERS : list string := ["bedrock"; "azure_openai"; "gemini"]%string.

Inductive HTTPError : Type :=
| HTTP_400_BAD_REQUEST
| HTTP_500_INTERNAL_SERVER_ERROR.

Record ProviderModelsResponse : Type := mkProviderModels {
  pm_provider : string;
  pm_models : list Listing.ModelPrices
}.

(** [get_provider_models]: the check of the provider is made before the
    [try], so its 400 is not turned into a 500; whatever the engine raises
    is. *)
Definition get_provider_models (data : PricingData) (provider : string)
  : HTTPError + ProviderModelsResponse :=
  if decide (provider ∈ VALID_PROVIDERS)
  then
    match Listing.get_provider_models data provider with
    | Some models => inr (mkProviderModels provider models)
    | None => inl HTTP_500_INTERNAL_SERVER_ERROR
    end
  else inl HTTP_400_BAD_REQUEST.

End Providers.

(** The wrappers of [calculate_cost] for the three providers. *)

Module Wrappers.


Definition azure_openai_cost (data : PricingData) (model : string)
    (prompt_tokens completion_tokens : Z) : option Decimal :=
  calculate_cost data "azure_openai" model prompt_tokens completion_tokens None.

Definition gemini_cost (data : PricingData) (model : string)
    (prompt_tokens completion_tokens : Z) : option Decimal :=
  calculate_cost data "gemini" model prompt_tokens completion_tokens None.

End Wrappers.

(** ** Price lists used as examples *)

Module Catalogs.

(** Two Bedrock models and the built-in defaults. *)
Definition catalog_pricing : PricingData :=
  [ ("bedrock",
      [ ("anthropic.claude-3-sonnet",
          [ ("input_per_1k", mkDec 3 (-3)); ("output_per_1k", mkDec 15 (-3)) ]);
        ("amazon.titan-text-express",
          [ ("input_per_1k", mkDec 2 (-4)); ("output_per_1k", mkDec 6 (-4)) ]) ]) ]%string
  ++ _get_default_pricing.

(** A price list whose only Bedrock model has no output price. *)
Definition incomplete_pricing : PricingData :=
  [ ("bedrock",
      [ ("anthropic.claude-3-sonnet", [ ("input_per_1k", mkDec 3 (-3)) ]) ]) ]%string
  ++ _get_default_pricing.

End Catalogs.

(** ** The queries of the usage service ([backend/services/usage.py]) *)

Module UsageQueries.

(** The order of timestamps. *)
Definition datetime_le (a b : datetime) : Prop :=
  dt_date a < dt_date b \/ (dt_date a = dt_date b /\ dt_time a <= dt_time b).

#[export] Instance datetime_le_dec a b : Decision (datetime_le a b).
Proof. unfold datetime_le. apply _. Defined.

Definition earlier (a b : datetime) : datetime := if decide (datetime_le a b) then a else b.
Definition later (a b : datetime) : datetime := if decide (datetime_le a b) then b else a.

(** [MIN] and [MAX] are NULL over no rows. *)
Definition sql_min (l : list datetime) : option datetime :=
  match l with
  | [] => None
  | x :: l' => Some (foldl earlier x l')
  end.

Definition sql_max (l : list datetime) : option datetime :=
  match l with
  | [] => None
  | x :: l' => Some (foldl later x l')
  end.

(** [float(x)]: the binary64 number nearest to the Decimal [x].  The
    conversion is not interpreted: a float is known by the Decimal it was
    made from. *)
Inductive PyFloat : Type := float (x : Decimal).

(** [float(x or 0)]: None and a zero Decimal are falsy. *)
Definition float_or_zero (x : option Decimal) : PyFloat :=
  match x with
  | Some v => if is_zero v then float (of_int 0) else float v
  | None => float (of_int 0)
  end.

(** A row of the GROUP BY query of [_get_breakdown]. *)
Record BreakdownRow : Type := mkBreakdownRow {
  b_key : string;
  b_requests : Z;
  b_tokens : option Z;
  b_cost : option Decimal
}.

(** The dictionary that [_get_breakdown] keeps for a key. *)
Record Breakdown : Type := mkBreakdown {
  requests : Z;
  tokens : Z;
  cost : PyFloat
}.

Definition breakdown_query (raw : list TokenUsageRaw) (tenant : string)
    (column : TokenUsageRaw -> string) : list BreakdownRow :=
  let rows := filter (fun e => tenant_id e = tenant) raw in
  map (fun key =>
         let part := filter (fun e => column e = key) rows in
         mkBreakdownRow key
           (Z.of_nat (length part))
           (Sql.sum_int (map total_tokens part))
           (Sql.sum_numeric (map calculated_cost part)))
    (remove_dups (map column rows)).

(** [_get_breakdown]; [column] is [getattr(TokenUsageRaw, group_by)]. *)
Definition _get_breakdown (raw : list TokenUsageRaw) (tenant : string)
    (column : TokenUsageRaw -> string) : gmap string Breakdown :=
  foldl (fun breakdown row =>
           <[b_key row := mkBreakdown (b_requests row) (or_zero (b_tokens row))
                            (float_or_zero (b_cost row))]> breakdown)
    ∅ (breakdown_query raw tenant column).

Record TenantSummaryResponse : Type := mkTenantSummary {
  ts_tenant_id : string;
  ts_total_requests : Z;
  ts_total_prompt_tokens : Z;
  ts_total_completion_tokens : Z;
  ts_total_tokens : Z;
  ts_total_cost : Decimal;
  ts_first_usage : option datetime;
  ts_last_usage : option datetime;
  ts_by_provider : gmap string Breakdown;
  ts_by_model : gmap string Breakdown;
  ts_by_cloud_provider : gmap string Breakdown
}.

Definition get_tenant_summary (raw : list TokenUsageRaw) (tenant : string)
  : TenantSummaryResponse :=
  let rows := filter (fun e => tenant_id e = tenant) raw in
  let by_provider := _get_breakdown raw tenant provider in
  let by_model := _get_breakdown raw tenant model in
  let by_cloud := _get_breakdown raw tenant cloud_provider in
  mkTenantSummary tenant
    (or_zero (Some (Z.of_nat (length rows))))
    (or_zero (Sql.sum_int (map prompt_tokens rows)))
    (or_zero (Sql.sum_int (map completion_tokens rows)))
    (or_zero (Sql.sum_int (map total_tokens rows)))
    (or_decimal_zero (Sql.sum_numeric (map calculated_cost rows)))
    (sql_min (map timestamp rows))
    (sql_max (map timestamp rows))
    by_provider by_model by_cloud.

(** [ORDER BY timestamp DESC]. *)
Definition newest_first (r1 r2 : TokenUsageRaw) : Prop :=
  datetime_le (timestamp r2) (timestamp r1).

#[export] Instance newest_first_dec r1 r2 : Decision (newest_first r1 r2).
Proof. unfold newest_first. apply _. Defined.

(** [if start_time: stmt.where(timestamp >= start_time)]; a datetime is
    never falsy. *)
Definition not_before (start_time : option datetime) (e : TokenUsageRaw) : Prop :=
  match start_time with
  | Some s => datetime_le s (timestamp e)
  | None => True
  end.

Definition not_after (end_time : option datetime) (e : TokenUsageRaw) : Prop :=
  match end_time with
  | Some s => datetime_le (timestamp e) s
  | None => True
  end.

#[export] Instance not_before_dec s e : Decision (not_before s e).
Proof. unfold not_before. destruct s; apply _. Defined.

#[export] Instance not_after_dec s e : Decision (not_after s e).
Proof. unfold not_after. destruct s; apply _. Defined.

(** [get_raw_usage].  PostgreSQL refuses a negative LIMIT or OFFSET: [None]
    is the exception that [execute] raises then. *)
Definition get_raw_usage (raw : list TokenUsageRaw) (tenant : string)
    (start_time end_time : option datetime) (limit offset : Z)
  : option (list TokenUsageRaw) :=
  if (limit <? 0) || (offset <? 0) then None
  else
    Some (take (Z.to_nat limit)
            (drop (Z.to_nat offset)
               (merge_sort newest_first
                  (filter (fun e => tenant_id e = tenant
                                    /\ not_before start_time e /\ not_after end_time e)
                     raw)))).

Record MonthlySummaryItem : Type := mkMonthlyItem {
  mi_year : Z;
  mi_month : Z;
  mi_provider : string;
  mi_model : string;
  mi_total_requests : Z;
  mi_total_prompt_tokens : Z;
  mi_total_completion_tokens : Z;
  mi_total_tokens : Z;
  mi_total_cost : Decimal
}.

Record MonthlySummaryResponse : Type := mkMonthlyResponse {
  ms_tenant_id : string;
  ms_items : list MonthlySummaryItem;
  ms_total_cost : Decimal;
  ms_total_tokens : Z
}.

Definition monthly_item
    (row : (string * Z * Z * string * string) * MonthlyMetrics) : MonthlySummaryItem :=
  let '((_, year, month, provider, model), m) := row in
  mkMonthlyItem year month provider model
    (m_total_requests m) (m_total_prompt_tokens m) (m_total_completion_tokens m)
    (m_total_tokens m) (Sql.of_numeric (m_total_cost m)).

Definition monthly_tenant (row : (string * Z * Z * string * string) * MonthlyMetrics)
  : string := let '((t, _, _, _, _), _) := row in t.

Definition monthly_year (row : (string * Z * Z * string * string) * MonthlyMetrics)
  : Z := let '((_, y, _, _, _), _) := row in y.

Definition monthly_month (row : (string * Z * Z * string * string) * MonthlyMetrics)
  : Z := let '((_, _, m, _, _), _) := row in m.

(** [if year: stmt.where(year == year)]: None and 0 are falsy and leave
    the query as it is. *)
Definition equals_if_truthy (wanted : option Z) (v : Z) : Prop :=
  match wanted with
  | Some w => if w =? 0 then True else v = w
  | None => True
  end.

#[export] Instance equals_if_truthy_dec w v : Decision (equals_if_truthy w v).
Proof. unfold equals_if_truthy. destruct w as [w |]; [destruct (w =? 0) |]; apply _. Defined.

(** [ORDER BY year DESC, month DESC]. *)
Definition latest_first (r1 r2 : (string * Z * Z * string * string) * MonthlyMetrics)
  : Prop :=
  monthly_year r2 < monthly_year r1
  \/ (monthly_year r2 = monthly_year r1 /\ monthly_month r2 <= monthly_month r1).

#[export] Instance latest_first_dec r1 r2 : Decision (latest_first r1 r2).
Proof. unfold latest_first. apply _. Defined.

Definition select_monthly (table : MonthlyTable) (tenant : string) (year month : option Z)
  : list ((string * Z * Z * string * string) * MonthlyMetrics) :=
  merge_sort latest_first
    (filter (fun row => monthly_tenant row = tenant
                        /\ equals_if_truthy year (monthly_year row)
                        /\ equals_if_truthy month (monthly_month row))
       (map_to_list table)).

Definition get_monthly_summary (table : MonthlyTable) (tenant : string)
    (year month : option Z) : MonthlySummaryResponse :=
  let rows := select_monthly table tenant year month in
  let items := map monthly_item rows in
  let total_cost := py_sum_decimal (map mi_total_cost items) in
  let total_tokens := py_sum_int (map mi_total_tokens items) in
  mkMonthlyResponse tenant items total_cost total_tokens.

End UsageQueries.

Example div_1000 : div (of_int 1000) (of_int 1000) = Some (mkDec 1 0).
Proof. reflexivity. Qed.

Example div_1500 : div (of_int 1500) (of_int 1000) = Some (mkDec 15 (-1)).
Proof. reflexivity. Qed.

Example div_third :
  div (of_int 1) (of_int 3) = Some (mkDec 3333333333333333333333333333 (-28)).
Proof. reflexivity. Qed.

Example div_two_thirds :
  div (of_int 2) (of_int 3) = Some (mkDec 6666666666666666666666666667 (-28)).
Proof. reflexivity. Qed.

Example quantize_half_even :
  quantize (mkDec 25 (-11)) (-10) = Some (mkDec 2 (-10)) /\
  quantize (mkDec 35 (-11)) (-10) = Some (mkDec 4 (-10)) /\
  quantize (mkDec 2 24) (-10) = None.
Proof. repeat split; reflexivity. Qed.

Example normalize_examples :
  _normalize_provider "AWS_Bedrock" = "bedrock"%string /\
  _normalize_provider "google" = "gemini"%string /\
  _normalize_provider "Mistral" = "mistral"%string.
Proof. repeat split; reflexivity. Qed.

Example scenario_cost :
  calculate_cost _get_default_pricing "bedrock" "anthropic.claude-3-sonnet"
    1000 500 (Some "t1"%string) = Some (mkDec 50000000 (-10)).
Proof. reflexivity. Qed.


(** ** Facts about the decimal arithmetic *)

Section DecimalFacts.

Lemma pow10_pos k : 0 < 10 ^ k \/ (k < 0 /\ 10 ^ k = 0).
Proof.
  destruct (Z_lt_le_dec k 0) as [Hk | Hk].
  - right. split; [lia |]. now apply Z.pow_neg_r.
  - left. apply Z.pow_pos_nonneg; lia.
Qed.

Lemma pow10_gt0 k : 0 <= k -> 0 < 10 ^ k.
Proof. intros. apply Z.pow_pos_nonneg; lia. Qed.

Lemma ndigits_aux_le fuel : forall n m,
  0 <= n < 10 ^ m -> 1 <= m -> ndigits_aux fuel n <= m.
Proof.
  induction fuel as [| f IH]; intros n m Hn Hm; simpl; [lia |].
  destruct (Z.ltb_spec n 10) as [Hlt | Hge]; [lia |].
  assert (Hm2 : 2 <= m).
  { destruct (Z_lt_le_dec m 2) as [Hs | Hs]; [| lia].
    assert (m = 1) by lia. subst m. change (10 ^ 1) with 10 in Hn. lia. }
  assert (n / 10 < 10 ^ (m - 1)).
  { apply Z.div_lt_upper_bound; [lia |].
    replace (10 * 10 ^ (m - 1)) with (10 ^ m); [lia |].
    replace m with (Z.succ (m - 1)) at 1 by lia.
    rewrite Z.pow_succ_r by lia. reflexivity. }
  assert (0 <= n / 10) by (apply Z.div_pos; lia).
  specialize (IH (n / 10) (m - 1)). lia.
Qed.

Lemma ndigits_le n m : 0 <= n < 10 ^ m -> 1 <= m -> ndigits n <= m.
Proof. apply ndigits_aux_le. Qed.

Lemma dec_fix_fits d : fits d -> dec_fix d = d.
Proof.
  intros Hd. unfold dec_fix.
  assert (ndigits (Z.abs (coef d)) <= prec).
  { apply ndigits_le; [| unfold prec; lia]. split; [lia | exact Hd]. }
  destruct (Z.leb_spec (ndigits (Z.abs (coef d))) prec); [reflexivity | lia].
Qed.

Lemma reduces_refl a : reduces a a.
Proof. exists 0. rewrite Z.mul_1_r. repeat split; lia. Qed.

Lemma reduces_abs a b : reduces a b -> Z.abs (coef a) <= Z.abs (coef b).
Proof.
  intros (j & Hj & Hc & _). rewrite Hc, Z.abs_mul.
  pose proof (pow10_gt0 j Hj). rewrite (Z.abs_eq (10 ^ j)) by lia. nia.
Qed.

Lemma reduces_fits a b : reduces a b -> fits b -> fits a.
Proof. intros H Hb. pose proof (reduces_abs _ _ H). unfold fits in *. lia. Qed.

Lemma reduces_sign a b : reduces a b -> (coef a <? 0) = (coef b <? 0).
Proof.
  intros (j & Hj & Hc & _). pose proof (pow10_gt0 j Hj).
  destruct (Z.ltb_spec (coef a) 0), (Z.ltb_spec (coef b) 0); try reflexivity; nia.
Qed.

Lemma reduces_zero a b : reduces a b -> coef a = 0 <-> coef b = 0.
Proof.
  intros (j & Hj & Hc & _). pose proof (pow10_gt0 j Hj). split; nia.
Qed.

Lemma mul_exact_reduces a a' b b' :
  reduces a a' -> reduces b b' -> reduces (mul_exact a b) (mul_exact a' b').
Proof.
  intros (ja & Hja & Hca & Hea) (jb & Hjb & Hcb & Heb).
  exists (ja + jb). simpl. rewrite Hca, Hcb, Z.pow_add_r by lia.
  repeat split; lia.
Qed.

Lemma mul_reduces a a' b b' :
  reduces a a' -> reduces b b' -> fits (mul_exact a' b') ->
  reduces (mul a b) (mul_exact a' b').
Proof.
  intros Ha Hb Hf. unfold mul.
  pose proof (mul_exact_reduces _ _ _ _ Ha Hb) as Hr.
  rewrite dec_fix_fits; [exact Hr | eapply reduces_fits; eauto].
Qed.

Lemma add_exact_reduces a a' b b' :
  reduces a a' -> reduces b b' -> reduces (add_exact a b) (add_exact a' b').
Proof.
  intros (ja & Hja & Hca & Hea) (jb & Hjb & Hcb & Heb).
  exists (Z.min (expo a) (expo b) - Z.min (expo a') (expo b')).
  unfold add_exact; simpl. split; [lia |]. split; [| lia].
  rewrite Hca, Hcb, Z.mul_add_distr_r, <- !Z.mul_assoc, <- !Z.pow_add_r by lia.
  f_equal; f_equal; f_equal; lia.
Qed.

Lemma add_reduces a a' b b' :
  reduces a a' -> reduces b b' -> fits (add_exact a' b') ->
  reduces (add a b) (add_exact a' b').
Proof.
  intros Ha Hb Hf. unfold add.
  pose proof (add_exact_reduces _ _ _ _ Ha Hb) as Hr.
  rewrite dec_fix_fits; [exact Hr | eapply reduces_fits; eauto].
Qed.

Lemma neg_reduces a a' : reduces a a' -> reduces (neg a) (neg a').
Proof.
  intros (j & Hj & Hc & He). exists j. simpl. rewrite Hc. repeat split; lia.
Qed.

End DecimalFacts.

Section DivisionFacts.

Lemma strip_zeros_spec fuel : forall c e ideal,
  0 < c ->
  exists t,
    0 <= t /\ c = fst (strip_zeros fuel c e ideal) * 10 ^ t
    /\ snd (strip_zeros fuel c e ideal) = e + t
    /\ 0 < fst (strip_zeros fuel c e ideal)
    /\ ((snd (strip_zeros fuel c e ideal) < ideal ->
         fst (strip_zeros fuel c e ideal) mod 10 <> 0)
        \/ t = Z.of_nat fuel).
Proof.
  induction fuel as [| f IH]; intros c e ideal Hc.
  - exists 0. simpl. rewrite Z.mul_1_r. repeat split; lia.
  - cbn [strip_zeros].
    destruct (Z.ltb_spec e ideal) as [He | He]; cbn [andb].
    + destruct (Z.eqb_spec (c mod 10) 0) as [Hm | Hm].
      * assert (Hc10 : c = 10 * (c / 10)).
        { pose proof (Z.div_mod c 10 ltac:(lia)). lia. }
        assert (0 < c / 10) by lia.
        destruct (IH (c / 10) (e + 1) ideal ltac:(assumption))
          as (t & Ht & Hct & Het & Hpos & Hstop).
        exists (t + 1). split; [lia |]. split.
        { rewrite Z.pow_add_r by lia. change (10 ^ 1) with 10. lia. }
        split; [lia |]. split; [assumption |].
        destruct Hstop as [Hstop | Hstop]; [now left | right; lia].
      * exists 0. simpl. rewrite Z.mul_1_r. repeat split; try lia; now left.
    + exists 0. simpl. rewrite Z.mul_1_r. repeat split; try lia; left; lia.
Qed.

Lemma with_sign_abs c m : 0 <= m -> Z.abs (with_sign c m) = m.
Proof. intros. unfold with_sign. destruct (c <? 0); lia. Qed.

(** Division by a power of ten is exact for a dividend within the
    precision: only the exponent moves. *)
Lemma div_pow10 a d k :
  coef d = 10 ^ k -> expo d = 0 -> 0 <= k -> k <= ndigits (10 ^ k) ->
  fits a ->
  exists r, div a d = Some r /\ reduces r (mkDec (coef a) (expo a - k)).
Proof.
  intros Hd He Hk Hlen Ha. unfold div. rewrite Hd, He.
  pose proof (pow10_gt0 k Hk) as Hpk.
  destruct (Z.eqb_spec (10 ^ k) 0) as [? | _]; [lia |].
  destruct (Z.eqb_spec (coef a) 0) as [Hz | Hnz].
  - eexists. split; [reflexivity |].
    rewrite dec_fix_fits by (unfold fits; simpl; unfold prec; lia).
    exists k. simpl. rewrite Hz. repeat split; lia.
  - set (m1 := Z.abs (coef a)).
    assert (Hm1 : 0 < m1 < 10 ^ prec) by (unfold fits in Ha; subst m1; lia).
    rewrite (Z.abs_eq (10 ^ k)) by lia.
    assert (HL1 : ndigits m1 <= prec).
    { apply ndigits_le; [lia | unfold prec; lia]. }
    set (shift := ndigits (10 ^ k) - ndigits m1 + prec + 1).
    assert (Hshift : k + 1 <= shift) by (subst shift; lia).
    destruct (Z.leb_spec 0 shift) as [_ | ?]; [| lia].
    assert (Hnum : m1 * 10 ^ shift = m1 * 10 ^ (shift - k) * 10 ^ k).
    { rewrite <- Z.mul_assoc, <- Z.pow_add_r by lia. do 2 f_equal. lia. }
    rewrite Hnum, Z.mod_mul, Z.div_mul by lia. cbn [Z.eqb].
    replace (expo a - 0 - (expo a - 0 - shift)) with shift by lia.
    pose proof (pow10_gt0 (shift - k) ltac:(lia)) as Hps.
    destruct (strip_zeros_spec (Z.to_nat shift) (m1 * 10 ^ (shift - k))
                (expo a - 0 - shift) (expo a - 0) ltac:(nia))
      as (t & Ht & Hct & Het & Hpos & Hstop).
    set (ce := strip_zeros _ _ _ _) in *.
    assert (Htk : shift - k <= t).
    { destruct Hstop as [Hstop | Hstop]; [| lia].
      destruct (Z_lt_le_dec t (shift - k)) as [Hlt | ?]; [| assumption].
      exfalso. apply Hstop; [lia |].
      pose proof (pow10_gt0 t Ht) as Hpt.
      assert (Hc : fst ce = m1 * 10 ^ (shift - k - t - 1) * 10).
      { apply (Z.mul_reg_r _ _ (10 ^ t)); [lia |]. rewrite <- Hct.
        rewrite <- !Z.mul_assoc. f_equal.
        change 10 with (10 ^ 1) at 3.
        rewrite <- !Z.pow_add_r by lia. f_equal. lia. }
      rewrite Hc. apply Z.mod_mul. lia. }
    assert (Hm1c : m1 = fst ce * 10 ^ (t - (shift - k))).
    { apply (Z.mul_reg_r _ _ (10 ^ (shift - k))); [lia |]. rewrite Hct.
      rewrite <- Z.mul_assoc, <- Z.pow_add_r by lia. do 2 f_equal. lia. }
    pose proof (pow10_gt0 (t - (shift - k)) ltac:(lia)) as Hpj.
    eexists. split; [reflexivity |].
    rewrite dec_fix_fits.
    2:{ unfold fits. cbn [coef]. rewrite with_sign_abs by lia.
        destruct Hm1 as [_ Hm1]. nia. }
    exists (t - (shift - k)). cbn [coef expo]. split; [lia |]. split; [| lia].
    unfold with_sign.
    destruct (Z.ltb_spec (coef a * 10 ^ k) 0) as [Hneg | Hpos'].
    + assert (coef a < 0) by nia. replace (coef a) with (- m1) by (subst m1; lia).
      rewrite Hm1c at 1. lia.
    + assert (0 <= coef a) by nia. replace (coef a) with m1 by (subst m1; lia).
      exact Hm1c.
Qed.

End DivisionFacts.

Section QuantizeFacts.

Lemma round_half_even_scale n d t :
  0 < d -> 0 < t -> round_half_even (n * t) (d * t) = round_half_even n d.
Proof.
  intros Hd Ht. unfold round_half_even.
  rewrite Z.div_mul_cancel_r, Z.mul_mod_distr_r by lia.
  destruct (Z.ltb_spec (2 * (n mod d * t)) (d * t)), (Z.ltb_spec (2 * (n mod d)) d);
    try reflexivity; try nia.
  destruct (Z.ltb_spec (d * t) (2 * (n mod d * t))), (Z.ltb_spec d (2 * (n mod d)));
    try reflexivity; nia.
Qed.

Lemma round_half_even_exact a d : 0 < d -> round_half_even (a * d) d = a.
Proof.
  intros Hd. unfold round_half_even. rewrite Z.mod_mul, Z.div_mul by lia.
  destruct (Z.ltb_spec (2 * 0) d); [reflexivity | lia].
Qed.

Lemma round_half_even_ge n d : n / d <= round_half_even n d.
Proof.
  unfold round_half_even.
  destruct (2 * (n mod d) <? d); [lia |].
  destruct (d <? 2 * (n mod d)); [lia |].
  destruct (Z.even (n / d)); lia.
Qed.

Lemma round_half_even_nonneg n d : 0 <= n -> 0 < d -> 0 <= round_half_even n d.
Proof.
  intros Hn Hd. pose proof (round_half_even_ge n d).
  pose proof (Z.div_pos n d Hn Hd). lia.
Qed.

Lemma with_sign_mul c x : 0 <= x -> with_sign c (Z.abs c * x) = c * x.
Proof. intros. unfold with_sign. destruct (Z.ltb_spec c 0); lia. Qed.

(** Rounding to an exponent depends on the number only, not on how many
    trailing zeros its coefficient carries. *)
Lemma rescale_reduces a b e : reduces a b -> rescale a e = rescale b e.
Proof.
  intros Hr. pose proof (reduces_sign _ _ Hr) as Hsign.
  destruct Hr as (j & Hj & Hc & He).
  pose proof (pow10_gt0 j Hj) as Hpj.
  assert (Habs : Z.abs (coef b) = Z.abs (coef a) * 10 ^ j).
  { rewrite Hc, Z.abs_mul, (Z.abs_eq (10 ^ j)) by lia. reflexivity. }
  unfold rescale.
  destruct (Z.leb_spec e (expo a)) as [Hea | Hea],
           (Z.leb_spec e (expo b)) as [Heb | Heb]; try lia.
  - f_equal. rewrite Hc, <- Z.mul_assoc, <- Z.pow_add_r by lia.
    do 2 f_equal. lia.
  - f_equal. rewrite Habs.
    replace (10 ^ j) with (10 ^ (expo a - e) * 10 ^ (e - expo b)).
    2:{ rewrite <- Z.pow_add_r by lia. f_equal. lia. }
    rewrite Z.mul_assoc, round_half_even_exact by (apply pow10_gt0; lia).
    unfold with_sign at 1. rewrite <- Hsign. fold (with_sign (coef a) (Z.abs (coef a) * 10 ^ (expo a - e))).
    pose proof (pow10_gt0 (expo a - e) ltac:(lia)).
    rewrite with_sign_mul by lia. reflexivity.
  - f_equal. rewrite Habs.
    replace (10 ^ (e - expo b)) with (10 ^ (e - expo a) * 10 ^ j).
    2:{ rewrite <- Z.pow_add_r by lia. f_equal. lia. }
    rewrite round_half_even_scale by (try apply pow10_gt0; lia).
    unfold with_sign. rewrite Hsign. reflexivity.
Qed.

Lemma quantize_fits d e :
  Z.abs (coef (rescale d e)) < 10 ^ prec -> quantize d e = Some (rescale d e).
Proof.
  intros H. unfold quantize.
  destruct (Z.eqb_spec (coef d) 0) as [Hz | Hnz].
  - f_equal. unfold rescale. rewrite Hz.
    destruct (Z.leb_spec e (expo d)) as [He | He]; [reflexivity |].
    pose proof (pow10_gt0 (e - expo d) ltac:(lia)).
    pose proof (round_half_even_exact 0 (10 ^ (e - expo d)) ltac:(lia)) as Hr.
    rewrite Z.mul_0_l in Hr. change (Z.abs 0) with 0. rewrite Hr. reflexivity.
  - set (m := Z.abs (coef d)). assert (Hm : 0 < m) by (subst m; lia).
    assert (Hlen : ndigits m <= prec + e - expo d).
    { unfold rescale in H.
      destruct (Z.leb_spec e (expo d)) as [He | He]; cbn [coef] in H.
      - rewrite Z.abs_mul in H. fold m in H.
        pose proof (pow10_gt0 (expo d - e) ltac:(lia)) as Hp.
        rewrite (Z.abs_eq (10 ^ (expo d - e))) in H by lia.
        destruct (Z_lt_le_dec (expo d - e) prec) as [Hx | Hx].
        + apply ndigits_le; [| lia]. split; [lia |].
          assert (Hsplit : 10 ^ prec = 10 ^ (prec + e - expo d) * 10 ^ (expo d - e)).
          { rewrite <- Z.pow_add_r by lia. f_equal. lia. }
          rewrite Hsplit in H. nia.
        + exfalso.
          assert (10 ^ prec <= 10 ^ (expo d - e)).
          { apply Z.pow_le_mono_r; unfold prec in *; lia. }
          nia.
      - pose proof (pow10_gt0 (e - expo d) ltac:(lia)) as Hp.
        rewrite with_sign_abs in H by (apply round_half_even_nonneg; lia).
        fold m in H.
        pose proof (round_half_even_ge m (10 ^ (e - expo d))) as Hge.
        apply ndigits_le; [| unfold prec; lia]. split; [lia |].
        replace (prec + e - expo d) with (prec + (e - expo d)) by lia.
        rewrite Z.pow_add_r by (unfold prec; lia).
        assert (Hq : m / 10 ^ (e - expo d) < 10 ^ prec) by lia.
        pose proof (Z.mul_succ_div_gt m (10 ^ (e - expo d)) Hp). nia. }
    fold m.
    destruct (Z.ltb_spec prec (expo d + ndigits m - 1 - e + 1)) as [? | _]; [lia |].
    cbv zeta.
    assert (Hans : ndigits (Z.abs (coef (rescale d e))) <= prec).
    { apply ndigits_le; [lia | unfold prec; lia]. }
    destruct (Z.ltb_spec prec (ndigits (Z.abs (coef (rescale d e))))) as [? | _]; [lia |].
    rewrite dec_fix_fits by exact H. reflexivity.
Qed.

Lemma quantize_reduces a b e :
  reduces a b -> Z.abs (coef (rescale b e)) < 10 ^ prec ->
  quantize a e = Some (rescale b e).
Proof.
  intros Hr H. rewrite <- (rescale_reduces _ _ e Hr) in *.
  now apply quantize_fits.
Qed.

End QuantizeFacts.

(** ** The pricing engine *)

Section CostFacts.

Lemma div_thousand n :
  0 <= n < 10 ^ prec ->
  exists r, div (of_int n) (of_int 1000) = Some r /\ reduces r (per_thousand n).
Proof.
  intros Hn.
  destruct (div_pow10 (of_int n) (of_int 1000) 3) as (r & Hr & Hred).
  - reflexivity.
  - reflexivity.
  - lia.
  - vm_compute. discriminate.
  - unfold fits. cbn [coef of_int]. lia.
  - exists r. split; [exact Hr | exact Hred].
Qed.

Lemma div_hundred D :
  fits D ->
  exists r, div D (of_int 100) = Some r /\ reduces r (mkDec (coef D) (expo D - 2)).
Proof.
  intros HD.
  destruct (div_pow10 D (of_int 100) 2) as (r & Hr & Hred).
  - reflexivity.
  - reflexivity.
  - lia.
  - vm_compute. discriminate.
  - exact HD.
  - exists r. split; [exact Hr | exact Hred].
Qed.

(** The code computes the exact formula whenever no intermediate result
    exceeds the precision of the decimal context. *)
Lemma calculate_cost_exact data provider model p c tenant_id :
  0 <= p -> 0 <= c ->
  within_precision (fst (get_model_pricing data provider model))
                   (snd (get_model_pricing data provider model))
                   (tenant_discount data tenant_id) p c ->
  calculate_cost data provider model p c tenant_id
  = Some (exact_cost data provider model p c tenant_id).
Proof.
  intros Hp Hc (Hpp & Hcp & Hin & Hout & Hbase & Hdisc & Hres).
  unfold calculate_cost, exact_cost.
  destruct (get_model_pricing data provider model) as [ip op]. cbn [fst snd] in *.
  set (D := tenant_discount data tenant_id) in *.
  destruct (div_thousand p ltac:(lia)) as (rp & -> & Hrp).
  destruct (div_thousand c ltac:(lia)) as (rc & -> & Hrc).
  cbn [mbind option_bind].
  pose proof (mul_reduces _ _ _ _ Hrp (reduces_refl ip) Hin) as Hic.
  pose proof (mul_reduces _ _ _ _ Hrc (reduces_refl op) Hout) as Hoc.
  pose proof (add_reduces _ _ _ _ Hic Hoc Hbase) as Htot.
  unfold undiscounted_unless_positive in *.
  destruct (is_pos D) eqn:HposD.
  - destruct (Hdisc eq_refl) as (HfD & Hff & Hfd).
    destruct (div_hundred D HfD) as (rf & -> & Hrf).
    cbn [mbind option_bind].
    assert (Hfac : reduces (sub (of_int 1) rf) (discount_factor D)).
    { unfold sub, discount_factor.
      apply add_reduces; [apply reduces_refl | now apply neg_reduces | exact Hff]. }
    pose proof (mul_reduces _ _ _ _ Htot Hfac Hfd) as Hfin.
    apply quantize_reduces; [exact Hfin | exact Hres].
  - cbn [mbind option_bind].
    apply quantize_reduces; [exact Htot | exact Hres].
Qed.

End CostFacts.

Section DefaultPricingFacts.

Lemma default_prices provider model :
  get_model_pricing _get_default_pricing provider model = (mkDec 2 (-3), mkDec 6 (-3))
  \/ get_model_pricing _get_default_pricing provider model = (mkDec 1 (-3), mkDec 3 (-3)).
Proof.
  unfold get_model_pricing.
  generalize (_normalize_provider provider) as pk. intros pk.
  unfold _get_default_pricing.
  cbv [default from_option Datatypes.id dict_get partial_match].
  destruct (decide (pk = "defaults"%string)) as [Hpk | Hpk].
  - repeat (destruct (decide (model = _)) as [? | ?];
            [solve [left; reflexivity | right; reflexivity] |]).
    repeat (match goal with
            | |- context [if ?b then _ else _] =>
                destruct b; [solve [left; reflexivity | right; reflexivity] |]
            end).
    subst pk. left. reflexivity.
  - destruct (decide ("defaults"%string = "defaults"%string)) as [_ | ?]; [| congruence].
    cbv [dict_get].
    repeat (destruct (decide (pk = _)) as [? | ?];
            [solve [left; reflexivity | right; reflexivity] |]).
    left. reflexivity.
Qed.

Lemma default_discount tenant_id :
  tenant_discount _get_default_pricing tenant_id = mkDec 0 0.
Proof.
  destruct tenant_id as [t |]; [| reflexivity].
  unfold tenant_discount. destruct (decide (t = EmptyString)); reflexivity.
Qed.

Lemma base_cost_milli a b p c :
  base_cost (mkDec a (-3)) (mkDec b (-3)) p c = mkDec (p * a + c * b) (-6).
Proof.
  unfold base_cost, add_exact, mul_exact, per_thousand. cbn [coef expo].
  replace (10 ^ (-3 + -3 - Z.min (-3 + -3) (-3 + -3))) with 1 by reflexivity.
  rewrite !Z.mul_1_r. reflexivity.
Qed.

Lemma to_places_micro x : to_places (mkDec x (-6)) 10 = mkDec (x * 10000) (-10).
Proof. reflexivity. Qed.

(** With prices of [a] and [b] thousandths per 1k tokens and no discount,
    the cost is [a] and [b] millionths per token, for every token count a
    BIGINT column can hold. *)
Lemma milli_cost data provider model p c tenant_id a b :
  get_model_pricing data provider model = (mkDec a (-3), mkDec b (-3)) ->
  tenant_discount data tenant_id = mkDec 0 0 ->
  0 <= a <= 1000 -> 0 <= b <= 1000 ->
  0 <= p < 2 ^ 63 -> 0 <= c < 2 ^ 63 ->
  calculate_cost data provider model p c tenant_id
  = Some (mkDec ((p * a + c * b) * 10000) (-10)).
Proof.
  intros Hpr Hd Ha Hb Hp Hc.
  assert (H63 : 2 ^ 63 = 9223372036854775808) by reflexivity.
  assert (H28 : 10 ^ prec = 10000000000000000000000000000) by reflexivity.
  rewrite H63 in Hp, Hc.
  rewrite calculate_cost_exact; try lia.
  - unfold exact_cost. rewrite Hpr, Hd. cbn [fst snd].
    unfold undiscounted_unless_positive.
    change (is_pos (mkDec 0 0)) with false. cbv iota.
    rewrite base_cost_milli, to_places_micro. reflexivity.
  - rewrite Hpr, Hd. cbn [fst snd]. unfold within_precision.
    unfold undiscounted_unless_positive.
    change (is_pos (mkDec 0 0)) with false. cbv iota.
    rewrite base_cost_milli, to_places_micro.
    unfold fits, mul_exact, per_thousand. cbn [coef expo]. rewrite H28.
    repeat split; try nia; discriminate.
Qed.


End DefaultPricingFacts.

Section CostClaims.

(** C1 (as amended).  For every pricing policy, provider, model, tenant and
    token counts p >= 0 and c >= 0, whenever no intermediate result needs
    more than the 28 significant digits of the decimal context,
    [calculate_cost] returns
    (p/1000)*inputPrice + (c/1000)*outputPrice, multiplied by (1 - D/100)
    when the tenant's discount percentage D is positive, computed exactly
    and rounded half to even to 10 fractional digits. *)
Theorem calculate_cost_formula data provider model p c tenant_id :
  0 <= p -> 0 <= c ->
  within_precision (fst (get_model_pricing data provider model))
                   (snd (get_model_pricing data provider model))
                   (tenant_discount data tenant_id) p c ->
  calculate_cost data provider model p c tenant_id
    = Some (exact_cost data provider model p c tenant_id)
  /\ expo (exact_cost data provider model p c tenant_id) = -10.
Proof.
  intros Hp Hc Hw. split.
  - now apply calculate_cost_exact.
  - unfold exact_cost, to_places, rescale.
    destruct (_ <=? _); reflexivity.
Qed.

(** The scenario of the specification: 1000 prompt and 500 completion
    tokens at the built-in bedrock prices cost exactly 0.0050000000. *)
Lemma calculate_cost_formula_witness :
  0 <= 1000 /\ 0 <= 500
  /\ within_precision
       (fst (get_model_pricing _get_default_pricing "bedrock" "anthropic.claude-3-sonnet"))
       (snd (get_model_pricing _get_default_pricing "bedrock" "anthropic.claude-3-sonnet"))
       (tenant_discount _get_default_pricing (Some "t1"%string)) 1000 500
  /\ calculate_cost _get_default_pricing "bedrock" "anthropic.claude-3-sonnet"
       1000 500 (Some "t1"%string) = Some (mkDec 50000000 (-10)).
Proof.
  assert (Hw : within_precision
       (fst (get_model_pricing _get_default_pricing "bedrock" "anthropic.claude-3-sonnet"))
       (snd (get_model_pricing _get_default_pricing "bedrock" "anthropic.claude-3-sonnet"))
       (tenant_discount _get_default_pricing (Some "t1"%string)) 1000 500).
  { repeat split; try (vm_compute; reflexivity);
      intros H; vm_compute in H; discriminate H. }
  split; [lia |]. split; [lia |]. split; [exact Hw |].
  exact (proj1 (calculate_cost_formula _get_default_pricing "bedrock"
                  "anthropic.claude-3-sonnet" 1000 500 (Some "t1"%string)
                  ltac:(lia) ltac:(lia) Hw)).
Defined.

(** C1 as stated fails: a configured discount that is not positive is not
    applied.  With a discount percentage of -10 the code charges
    0.0050000000 where the stated formula gives 0.0055000000. *)
Lemma stated_cost_refuted :
  ~ (forall data provider model p c tenant_id,
       0 <= p -> 0 <= c ->
       calculate_cost data provider model p c tenant_id
       = Some (stated_cost data provider model p c tenant_id)).
Proof.
  intros H.
  specialize (H surcharge_pricing "bedrock"%string "anthropic.claude-3-sonnet"%string
                1000 500 (Some "t1"%string) ltac:(lia) ltac:(lia)).
  vm_compute in H. discriminate H.
Qed.

Example surcharge_not_applied :
  calculate_cost surcharge_pricing "bedrock" "anthropic.claude-3-sonnet"
    1000 500 (Some "t1"%string) = Some (mkDec 50000000 (-10))
  /\ stated_cost surcharge_pricing "bedrock" "anthropic.claude-3-sonnet"
       1000 500 (Some "t1"%string) = mkDec 55000000 (-10).
Proof. split; reflexivity. Qed.




End CostClaims.

Section ResolutionFacts.








Example resolution_examples :
  get_model_pricing
    [ ("bedrock", [ ("anthropic.claude-3", [ ("input_per_1k", mkDec 3 (-3));
                                             ("output_per_1k", mkDec 15 (-3)) ]) ]) ]%string
    "AWS_Bedrock" "anthropic.claude-3-sonnet" = (mkDec 3 (-3), mkDec 15 (-3))
  /\ get_model_pricing _get_default_pricing "gemini" "gemini-1.5-pro"
     = (mkDec 1 (-3), mkDec 3 (-3))
  /\ get_model_pricing _get_default_pricing "mistral" "large" = global_default.
Proof. repeat split; reflexivity. Qed.

End ResolutionFacts.

(** ** The usage service and the batch endpoint *)

Section IngestionFacts.

Lemma quantize_expo d e r : quantize d e = Some r -> expo r = e.
Proof.
  unfold quantize.
  destruct (coef d =? 0); [intros [= <-]; reflexivity |].
  destruct (prec <? _); [discriminate |].
  destruct (Z.ltb_spec prec (ndigits (Z.abs (coef (rescale d e))))) as [| Hlen];
    [discriminate |].
  intros [= <-]. unfold dec_fix.
  destruct (Z.leb_spec (ndigits (Z.abs (coef (rescale d e)))) prec); [| lia].
  unfold rescale. destruct (e <=? expo d); reflexivity.
Qed.







Lemma validate_fields fromisoformat payload event :
  validate fromisoformat payload = Some event ->
  0 <= ev_prompt_tokens event /\ 0 <= ev_completion_tokens event
  /\ ev_provider event ∈ ["bedrock"; "azure_openai"; "gemini"]%string
  /\ 1 <= len (ev_model event) <= 255
  /\ 1 <= len (ev_tenant_id event) <= 255.
Proof.
  unfold validate. destruct (fields_ok payload) eqn:Hok; [| discriminate].
  destruct (parse_timestamp fromisoformat (pl_timestamp payload)) as [ts |];
    [| discriminate].
  cbn [mbind option_bind]. intros [= <-]. cbn [ev_prompt_tokens ev_completion_tokens
    ev_provider ev_model ev_tenant_id].
  unfold fields_ok in Hok. repeat (apply andb_prop in Hok; destruct Hok as [Hok ?]).
  unfold provider_ok in *.
  repeat match goal with
         | H : (_ <=? _) = true |- _ => apply Z.leb_le in H
         | H : bool_decide _ = true |- _ => apply bool_decide_eq_true in H
         end.
  repeat split; assumption.
Qed.

End IngestionFacts.

Section IngestionClaims.







End IngestionClaims.

(** ** The daily aggregation job *)

Section DailyFacts.

Lemma filter_nonempty {A} (P : A -> Prop) `{!forall x, Decision (P x)} (l : list A) :
  filter P l <> [] <-> exists x, x ∈ l /\ P x.
Proof.
  induction l as [| a l IH].
  - split; [intros Hn; now contradiction Hn | intros (x & Hx & _); inversion Hx].
  - rewrite filter_cons. destruct (decide (P a)) as [Ha | Ha].
    + split; [intros _; exists a; split; [left | exact Ha] | discriminate].
    + rewrite IH. split.
      * intros (x & Hx & HP). exists x. split; [now right | exact HP].
      * intros (x & Hx & HP). apply elem_of_cons in Hx as [-> | Hx]; [contradiction |].
        now exists x.
Qed.

Lemma daily_upsert_insert table d row :
  DailyAggregationJob.upsert table d row
  = <[DailyAggregationJob.key_of d row := DailyAggregationJob.insert_values row]> table.
Proof.
  unfold DailyAggregationJob.upsert.
  destruct (table !! DailyAggregationJob.key_of d row); reflexivity.
Qed.

Lemma daily_fold_count d rows : forall n (table : gmap _ DailyMetrics),
  foldl (fun '(count, table) row => (count + 1, DailyAggregationJob.upsert table d row))
    (n, table) rows
  = (n + Z.of_nat (length rows),
     foldl (fun table row => DailyAggregationJob.upsert table d row) table rows).
Proof.
  induction rows as [| row rows IH]; intros n table; cbn [foldl length].
  - f_equal. lia.
  - rewrite IH. f_equal. lia.
Qed.

Lemma daily_run_unfold today raw table d :
  DailyAggregationJob.run today raw table (Some d)
  = (Z.of_nat (length (DailyAggregationJob.query d raw)),
     foldl (fun table row => DailyAggregationJob.upsert table d row) table
       (DailyAggregationJob.query d raw)).
Proof.
  unfold DailyAggregationJob.run. cbn [default from_option].
  change (Datatypes.id d) with d.
  destruct (DailyAggregationJob.query d raw) as [| row rows] eqn:Hq; [reflexivity |].
  now rewrite daily_fold_count.
Qed.

Lemma daily_lookup_upserts d (f : string * string * string * string -> list TokenUsageRaw)
    groups : forall (table : gmap _ DailyMetrics) t d' p m c,
  foldl (fun table row => DailyAggregationJob.upsert table d row) table
    (map (fun g => DailyAggregationJob.aggregate g (f g)) groups)
    !! (t, d', p, m, c)
  = if decide (d' = d /\ (t, p, m, c) ∈ groups)
    then Some (DailyAggregationJob.insert_values
                 (DailyAggregationJob.aggregate (t, p, m, c) (f (t, p, m, c))))
    else table !! (t, d', p, m, c).
Proof.
  induction groups as [| g groups IH]; intros table t d' p m c; cbn [map foldl].
  - destruct (decide _) as [[_ Hin] | _]; [inversion Hin | reflexivity].
  - rewrite IH, daily_upsert_insert.
    destruct g as [[[gt gp] gm] gc].
    change (DailyAggregationJob.key_of d
              (DailyAggregationJob.aggregate (gt, gp, gm, gc) (f (gt, gp, gm, gc))))
      with (gt, d, gp, gm, gc).
    destruct (decide (d' = d /\ (t, p, m, c) ∈ groups)) as [[-> Hin] | Hnot].
    + rewrite decide_True; [reflexivity | split; [reflexivity | now right]].
    + destruct (decide ((gt, d, gp, gm, gc) = (t, d', p, m, c))) as [Heq | Hne].
      * injection Heq as -> <- -> -> ->.
        rewrite lookup_insert_eq, decide_True; [reflexivity | split; [reflexivity | left]].
      * rewrite lookup_insert_ne by exact Hne.
        rewrite decide_False; [reflexivity |].
        intros [-> Hin]. apply elem_of_cons in Hin as [Heq | Hin].
        -- apply Hne. now injection Heq as -> -> -> ->.
        -- apply Hnot. now split.
Qed.

(** The table after a run, row by row: a group with events on the date
    holds what the query computes for it, every other row is as before. *)
Lemma daily_run_lookup today raw (table : gmap _ DailyMetrics) d t d' p m c :
  snd (DailyAggregationJob.run today raw table (Some d)) !! (t, d', p, m, c)
  = if decide (d' = d /\ DailyAggregationJob.partition d raw (t, p, m, c) <> [])
    then Some (DailyAggregationJob.insert_values
                 (DailyAggregationJob.aggregate (t, p, m, c)
                    (DailyAggregationJob.partition d raw (t, p, m, c))))
    else table !! (t, d', p, m, c).
Proof.
  rewrite daily_run_unfold. cbn [snd]. unfold DailyAggregationJob.query.
  rewrite (daily_lookup_upserts d (DailyAggregationJob.partition d raw)).
  assert (Hiff : (t, p, m, c) ∈ remove_dups
                   (map DailyAggregationJob.group_of
                      (filter (fun e => dt_date (timestamp e) = d) raw))
                 <-> DailyAggregationJob.partition d raw (t, p, m, c) <> []).
  { rewrite elem_of_remove_dups. unfold DailyAggregationJob.partition.
    rewrite filter_nonempty, list_elem_of_fmap. split.
    - intros (e & Hg & He). now exists e.
    - intros (e & He & Hg). now exists e. }
  destruct (decide (d' = d /\ _ ∈ _)) as [[Hd Hin] | Hnot];
    destruct (decide (d' = d /\ _ <> [])) as [[Hd' Hne] | Hnot']; try reflexivity.
  - exfalso. apply Hnot'. split; [exact Hd | now apply Hiff].
  - exfalso. apply Hnot. split; [exact Hd' | now apply Hiff].
Qed.

End DailyFacts.

Section DailyClaims.

Lemma or_zero_sum l : or_zero (Sql.sum_int l) = total l.
Proof.
  destruct l as [| x l]; [reflexivity |]. unfold Sql.sum_int, or_zero, total.
  destruct (Z.eqb_spec (foldr Z.add 0 (x :: l)) 0) as [-> | _]; reflexivity.
Qed.

Lemma numeric_sum l :
  Sql.to_numeric (or_decimal_zero (Sql.sum_numeric l)) = total l.
Proof.
  destruct l as [| x l]; [reflexivity |].
  unfold Sql.sum_numeric, or_decimal_zero, is_zero, Sql.of_numeric, total.
  cbn [coef]. set (s := foldr Z.add 0 (x :: l)).
  destruct (Z.eqb_spec s 0) as [-> | _]; [reflexivity |].
  unfold Sql.to_numeric. cbn [expo coef]. change (-10 <=? -10) with true. cbv iota.
  change (10 ^ (-10 + 10)) with 1. lia.
Qed.

Lemma omap_id_map {A B} (f : A -> option B) (l : list A) :
  omap (fun x => x) (map f l) = omap f l.
Proof.
  induction l as [| a l IH]; [reflexivity |]. cbn. now rewrite IH.
Qed.

Lemma truthy_average l :
  int_if_truthy (Sql.avg_int l)
  = if total (omap (fun x => x) l) =? 0 then None
    else Some (Z.quot (total (omap (fun x => x) l))
                      (Z.of_nat (length (omap (fun x => x) l)))).
Proof.
  unfold Sql.avg_int. destruct (omap (fun x => x) l) as [| x present]; [reflexivity |].
  reflexivity.
Qed.

(** What the job writes for a group is what the events of the group give
    when aggregated from scratch. *)
Lemma insert_values_fresh g events :
  DailyAggregationJob.insert_values (DailyAggregationJob.aggregate g events)
  = fresh_daily events.
Proof.
  destruct g as [[[t p] m] c].
  unfold DailyAggregationJob.insert_values, DailyAggregationJob.aggregate, fresh_daily.
  cbn [DailyAggregationJob.q_total_requests DailyAggregationJob.q_total_prompt_tokens
       DailyAggregationJob.q_total_completion_tokens DailyAggregationJob.q_total_tokens
       DailyAggregationJob.q_total_cost DailyAggregationJob.q_avg_latency_ms].
  rewrite !or_zero_sum, numeric_sum, truthy_average.
  unfold reported_latencies. now rewrite omap_id_map.
Qed.


Example daily_run_rows :
  map_to_list (snd (DailyAggregationJob.run 0 latency_rows ∅ (Some 738900)))
  = [ (("t1", 738900, "bedrock", "a", "aws"), mkDaily 2 30 0 30 60 None);
      (("t1", 738900, "bedrock", "b", "aws"), mkDaily 3 120 0 120 240 (Some 3)) ]%string.
Proof. vm_compute. reflexivity. Qed.



End DailyClaims.

Section BackfillClaims.

Lemma backfill_loop_step today raw current end_date total_ (table : gmap _ DailyMetrics) :
  DailyAggregationJob.backfill_loop today raw current end_date total_ table
  = if decide (current <= end_date)
    then DailyAggregationJob.backfill_loop today raw (current + 1) end_date
           (total_ + fst (DailyAggregationJob.run today raw table (Some current)))
           (snd (DailyAggregationJob.run today raw table (Some current)))
    else (total_, table).
Proof.
  rewrite DailyAggregationJob.backfill_loop_equation_1.
  destruct (decide (current <= end_date)); reflexivity.
Qed.




End BackfillClaims.

(** ** The calendar *)

Section CalendarFacts.

Lemma days_before_year_succ y :
  days_before_year (y + 1) = days_before_year y + (if is_leap y then 366 else 365).
Proof.
  unfold days_before_year, is_leap. cbv zeta.
  replace (y + 1 - 1) with y by lia.
  destruct (Z.eqb_spec (y mod 4) 0) as [H4 | H4];
    destruct (Z.eqb_spec (y mod 100) 0) as [H100 | H100];
    destruct (Z.eqb_spec (y mod 400) 0) as [H400 | H400];
    cbn [andb orb negb];
    Z.div_mod_to_equations; lia.
Qed.

Lemma month_cases m : 1 <= m <= 12 ->
  m = 1 \/ m = 2 \/ m = 3 \/ m = 4 \/ m = 5 \/ m = 6
  \/ m = 7 \/ m = 8 \/ m = 9 \/ m = 10 \/ m = 11 \/ m = 12.
Proof. lia. Qed.

Lemma days_before_month_succ y m :
  1 <= m <= 11 ->
  days_before_month y (m + 1) = days_before_month y m + days_in_month y m.
Proof.
  intros Hm. destruct (month_cases m ltac:(lia)) as
    [-> | [-> | [-> | [-> | [-> | [-> | [-> | [-> | [-> | [-> | [-> | ->]]]]]]]]]]];
    try lia; unfold days_before_month, days_in_month; cbn;
    destruct (is_leap y); reflexivity.
Qed.

Lemma days_before_december y :
  days_before_month y 12 + days_in_month y 12 = if is_leap y then 366 else 365.
Proof.
  unfold days_before_month, days_in_month. cbn. destruct (is_leap y); reflexivity.
Qed.

Lemma days_in_month_bounds y m : 28 <= days_in_month y m <= 31.
Proof.
  unfold days_in_month.
  destruct (m =? 2); [destruct (is_leap y); lia |].
  destruct (_ || _); lia.
Qed.

Lemma mkdate_Some y m d :
  1 <= m <= 12 -> 1 <= d <= days_in_month y m ->
  mkdate y m d = Some (days_before_year y + days_before_month y m + d).
Proof.
  intros Hm Hd. unfold mkdate.
  destruct (Z.leb_spec 1 m); [| lia]. destruct (Z.leb_spec m 12); [| lia].
  destruct (Z.leb_spec 1 d); [| lia].
  destruct (Z.leb_spec d (days_in_month y m)); [| lia]. reflexivity.
Qed.

Lemma mkdate_inv y m d x :
  mkdate y m d = Some x ->
  1 <= m <= 12 /\ 1 <= d <= days_in_month y m
  /\ x = days_before_year y + days_before_month y m + d.
Proof.
  unfold mkdate.
  destruct (Z.leb_spec 1 m); [| discriminate]. destruct (Z.leb_spec m 12); [| discriminate].
  destruct (Z.leb_spec 1 d); [| discriminate].
  destruct (Z.leb_spec d (days_in_month y m)); [| discriminate].
  cbn [andb]. intros [= <-]. lia.
Qed.

(** The bounds that the monthly job computes are the first and the last
    day of the month, December included. *)
Lemma month_bounds_value y m :
  1 <= m <= 12 ->
  MonthlyAggregationJob.month_bounds y m
  = Some (days_before_year y + days_before_month y m + 1,
          days_before_year y + days_before_month y m + days_in_month y m).
Proof.
  intros Hm. unfold MonthlyAggregationJob.month_bounds.
  pose proof (days_in_month_bounds y m).
  rewrite (mkdate_Some y m 1) by lia. cbn [mbind option_bind].
  destruct (Z.eqb_spec m 12) as [-> | Hne].
  - pose proof (days_in_month_bounds (y + 1) 1).
    rewrite (mkdate_Some (y + 1) 1 1) by lia. cbn [mbind option_bind].
    rewrite days_before_year_succ.
    pose proof (days_before_december y) as Hdec.
    change (days_before_month (y + 1) 1) with
      (0 + (if (2 <? 1) && is_leap (y + 1) then 1 else 0)).
    change (2 <? 1) with false. cbn [andb].
    do 2 f_equal. lia.
  - pose proof (days_in_month_bounds y (m + 1)).
    rewrite (mkdate_Some y (m + 1) 1) by lia. cbn [mbind option_bind].
    rewrite days_before_month_succ by lia. do 2 f_equal. lia.
Qed.

Lemma in_month_bounds y m d :
  in_month y m d
  <-> days_before_year y + days_before_month y m + 1 <= d
      /\ d <= days_before_year y + days_before_month y m + days_in_month y m.
Proof. unfold in_month. lia. Qed.


End CalendarFacts.

(** ** The monthly aggregation job *)

Section MonthlyFacts.

Lemma monthly_upsert_insert table y m row :
  MonthlyAggregationJob.upsert table y m row
  = <[MonthlyAggregationJob.key_of y m row := MonthlyAggregationJob.insert_values row]> table.
Proof.
  unfold MonthlyAggregationJob.upsert.
  destruct (table !! MonthlyAggregationJob.key_of y m row); reflexivity.
Qed.

Lemma monthly_fold_count y m rows : forall n (table : gmap _ MonthlyMetrics),
  foldl (fun '(count, table) row =>
           (count + 1, MonthlyAggregationJob.upsert table y m row)) (n, table) rows
  = (n + Z.of_nat (length rows),
     foldl (fun table row => MonthlyAggregationJob.upsert table y m row) table rows).
Proof.
  induction rows as [| row rows IH]; intros n table; cbn [foldl length].
  - f_equal. lia.
  - rewrite IH. f_equal. lia.
Qed.

Lemma monthly_run_unfold today daily table y m :
  1 <= m <= 12 ->
  MonthlyAggregationJob.run today daily table (Some y) (Some m)
  = Some (Z.of_nat (length (MonthlyAggregationJob.query
                              (days_before_year y + days_before_month y m + 1)
                              (days_before_year y + days_before_month y m
                               + days_in_month y m) daily)),
          foldl (fun table row => MonthlyAggregationJob.upsert table y m row) table
            (MonthlyAggregationJob.query
               (days_before_year y + days_before_month y m + 1)
               (days_before_year y + days_before_month y m + days_in_month y m)
               daily)).
Proof.
  intros Hm. unfold MonthlyAggregationJob.run. cbn [mbind option_bind].
  rewrite month_bounds_value by exact Hm. cbn [mbind option_bind].
  destruct (MonthlyAggregationJob.query _ _ daily) as [| row rows]; [reflexivity |].
  now rewrite monthly_fold_count.
Qed.

Lemma monthly_lookup_upserts y m
    (f : string * string * string -> list ((string * Z * string * string * string) * DailyMetrics))
    groups : forall (table : gmap _ MonthlyMetrics) t y' m' p mo,
  foldl (fun table row => MonthlyAggregationJob.upsert table y m row) table
    (map (fun g => MonthlyAggregationJob.aggregate g (f g)) groups)
    !! (t, y', m', p, mo)
  = if decide (y' = y /\ m' = m /\ (t, p, mo) ∈ groups)
    then Some (MonthlyAggregationJob.insert_values
                 (MonthlyAggregationJob.aggregate (t, p, mo) (f (t, p, mo))))
    else table !! (t, y', m', p, mo).
Proof.
  induction groups as [| g groups IH]; intros table t y' m' p mo; cbn [map foldl].
  - destruct (decide _) as [(_ & _ & Hin) | _]; [inversion Hin | reflexivity].
  - rewrite IH, monthly_upsert_insert.
    destruct g as [[gt gp] gm].
    change (MonthlyAggregationJob.key_of y m
              (MonthlyAggregationJob.aggregate (gt, gp, gm) (f (gt, gp, gm))))
      with (gt, y, m, gp, gm).
    destruct (decide (y' = y /\ m' = m /\ (t, p, mo) ∈ groups)) as [(-> & -> & Hin) | Hnot].
    + rewrite decide_True; [reflexivity | repeat split; now right].
    + destruct (decide ((gt, y, m, gp, gm) = (t, y', m', p, mo))) as [Heq | Hne].
      * injection Heq as -> <- <- -> ->.
        rewrite lookup_insert_eq, decide_True; [reflexivity | repeat split; left].
      * rewrite lookup_insert_ne by exact Hne.
        rewrite decide_False; [reflexivity |].
        intros (-> & -> & Hin). apply elem_of_cons in Hin as [Heq | Hin].
        -- apply Hne. now injection Heq as -> -> ->.
        -- apply Hnot. now repeat split.
Qed.

Lemma monthly_partition_rows y m daily t p mo :
  MonthlyAggregationJob.partition
    (days_before_year y + days_before_month y m + 1)
    (days_before_year y + days_before_month y m + days_in_month y m) daily (t, p, mo)
  = month_rows daily y m t p mo.
Proof.
  unfold MonthlyAggregationJob.partition, month_rows. f_equal.
  apply list_filter_iff. intros row. now rewrite in_month_bounds.
Qed.

Lemma monthly_insert_values_fresh g rows :
  MonthlyAggregationJob.insert_values (MonthlyAggregationJob.aggregate g rows)
  = fresh_monthly rows.
Proof.
  destruct g as [[t p] m].
  unfold MonthlyAggregationJob.insert_values, MonthlyAggregationJob.aggregate,
    fresh_monthly.
  cbn [MonthlyAggregationJob.q_total_requests MonthlyAggregationJob.q_total_prompt_tokens
       MonthlyAggregationJob.q_total_completion_tokens MonthlyAggregationJob.q_total_tokens
       MonthlyAggregationJob.q_total_cost].
  now rewrite !or_zero_sum, numeric_sum.
Qed.

(** The monthly table after a run, row by row. *)
Lemma monthly_run_lookup today daily (table : gmap _ MonthlyMetrics) y m n table'
    t y' m' p mo :
  1 <= m <= 12 ->
  MonthlyAggregationJob.run today daily table (Some y) (Some m) = Some (n, table') ->
  table' !! (t, y', m', p, mo)
  = if decide (y' = y /\ m' = m /\ month_rows daily y m t p mo <> [])
    then Some (fresh_monthly (month_rows daily y m t p mo))
    else table !! (t, y', m', p, mo).
Proof.
  intros Hm Hrun. rewrite monthly_run_unfold in Hrun by exact Hm.
  injection Hrun as _ <-. unfold MonthlyAggregationJob.query.
  rewrite (monthly_lookup_upserts y m
             (MonthlyAggregationJob.partition
                (days_before_year y + days_before_month y m + 1)
                (days_before_year y + days_before_month y m + days_in_month y m) daily)).
  rewrite monthly_insert_values_fresh, monthly_partition_rows.
  assert (Hiff : (t, p, mo) ∈ remove_dups
                   (map MonthlyAggregationJob.group_of
                      (filter (fun row =>
                                 days_before_year y + days_before_month y m + 1
                                   <= row_date row
                                 /\ row_date row
                                    <= days_before_year y + days_before_month y m
                                       + days_in_month y m) (map_to_list daily)))
                 <-> month_rows daily y m t p mo <> []).
  { rewrite elem_of_remove_dups, <- monthly_partition_rows.
    unfold MonthlyAggregationJob.partition.
    rewrite filter_nonempty, list_elem_of_fmap. split.
    - intros (e & Hg & He). now exists e.
    - intros (e & He & Hg). now exists e. }
  destruct (decide (y' = y /\ m' = m /\ _ ∈ _)) as [(Hy & Hm' & Hin) | Hnot];
    destruct (decide (y' = y /\ m' = m /\ _ <> [])) as [(Hy' & Hm'' & Hne) | Hnot'];
    try reflexivity.
  - exfalso. apply Hnot'. repeat split; try assumption. now apply Hiff.
  - exfalso. apply Hnot. repeat split; try assumption. now apply Hiff.
Qed.



End MonthlyFacts.

(** ** The summary query *)

Section SummaryFacts.

Lemma py_sum_int_total l : py_sum_int l = total l.
Proof.
  unfold py_sum_int, total.
  assert (H : forall acc, foldl Z.add acc l = acc + foldr Z.add 0 l).
  { induction l as [| x l IH]; intros acc; cbn [foldl foldr]; [lia |].
    rewrite IH. lia. }
  rewrite H. lia.
Qed.

#[local] Instance newer_first_total : Total newer_first.
Proof. intros r1 r2. unfold newer_first. lia. Qed.



End SummaryFacts.

(** * Further properties of the code *)

(** ** Costs *)

Section MoreCostFacts.

(** X1.  Whenever [calculate_cost] returns a cost, the cost is written
    with exactly 10 fractional digits, whatever the prices, the discount
    and the token counts. *)
Theorem cost_has_ten_places data provider model p c tenant_id cost :
  calculate_cost data provider model p c tenant_id = Some cost ->
  expo cost = -10.
Proof.
  unfold calculate_cost.
  destruct (get_model_pricing data provider model) as [ip op].
  destruct (div (of_int p) (of_int 1000)) as [rp |]; [| discriminate].
  destruct (div (of_int c) (of_int 1000)) as [rc |]; [| discriminate].
  cbn [mbind option_bind].
  destruct (is_pos (tenant_discount data tenant_id)).
  - destruct (div (tenant_discount data tenant_id) (of_int 100)) as [rf |];
      [| discriminate].
    cbn [mbind option_bind]. intros Hq. now apply quantize_expo in Hq.
  - cbn [mbind option_bind]. intros Hq. now apply quantize_expo in Hq.
Qed.

Lemma cost_has_ten_places_witness :
  calculate_cost gold_pricing "gemini" "gemini-1.5-pro" 7 3 (Some "gold"%string)
    = Some (mkDec 144000 (-10))
  /\ expo (mkDec 144000 (-10)) = -10.
Proof.
  assert (H : calculate_cost gold_pricing "gemini" "gemini-1.5-pro" 7 3
                (Some "gold"%string) = Some (mkDec 144000 (-10)))
    by (vm_compute; reflexivity).
  split; [exact H |]. exact (cost_has_ten_places _ _ _ _ _ _ _ H).
Defined.

Lemma mul_zero_l a b : coef a = 0 -> mul a b = mkDec 0 (expo a + expo b).
Proof.
  intros Ha. unfold mul, mul_exact. rewrite Ha, Z.mul_0_l.
  apply dec_fix_fits. unfold fits, prec. cbn. lia.
Qed.

Lemma add_zero a b : coef a = 0 -> coef b = 0 -> coef (add a b) = 0.
Proof.
  intros Ha Hb. unfold add, add_exact. rewrite Ha, Hb, !Z.mul_0_l.
  rewrite dec_fix_fits; [reflexivity |]. unfold fits, prec. cbn. lia.
Qed.

Lemma div_nonzero_Some a b : coef b <> 0 -> exists r, div a b = Some r.
Proof.
  intros Hb. unfold div.
  destruct (Z.eqb_spec (coef b) 0); [contradiction |].
  destruct (coef a =? 0); eexists; reflexivity.
Qed.

(** X2.  No tokens cost nothing: for every pricing policy, provider, model
    and tenant, the cost of 0 prompt and 0 completion tokens is computed,
    and is 0.0000000000. *)
Theorem zero_tokens_zero_cost data provider model tenant_id :
  calculate_cost data provider model 0 0 tenant_id = Some (mkDec 0 (-10)).
Proof.
  unfold calculate_cost.
  destruct (get_model_pricing data provider model) as [ip op].
  change (div (of_int 0) (of_int 1000)) with (Some (mkDec 0 0)).
  cbn [mbind option_bind].
  assert (Ht : coef (add (mul (mkDec 0 0) ip) (mul (mkDec 0 0) op)) = 0).
  { apply add_zero; now rewrite mul_zero_l. }
  destruct (is_pos (tenant_discount data tenant_id)).
  - destruct (div_nonzero_Some (tenant_discount data tenant_id) (of_int 100))
      as [rf ->]; [discriminate |].
    cbn [mbind option_bind]. rewrite mul_zero_l by exact Ht.
    reflexivity.
  - cbn [mbind option_bind]. unfold quantize. now rewrite Ht.
Qed.




End MoreCostFacts.

Section DiscountFacts.

Lemma discount_factor_int D : discount_factor (mkDec D 0) = mkDec (100 - D) (-2).
Proof.
  unfold discount_factor, add_exact, neg, of_int. cbn [coef expo].
  change (10 ^ (0 - Z.min 0 (0 - 2))) with 100.
  change (10 ^ (0 - 2 - Z.min 0 (0 - 2))) with 1.
  change (Z.min 0 (0 - 2)) with (-2). f_equal. lia.
Qed.

Lemma discounted_milli_cost data provider model p c tenant_id a b D :
  get_model_pricing data provider model = (mkDec a (-3), mkDec b (-3)) ->
  tenant_discount data tenant_id = mkDec D 0 ->
  0 <= a <= 1000 -> 0 <= b <= 1000 -> 1 <= D <= 100 ->
  0 <= p < 2 ^ 63 -> 0 <= c < 2 ^ 63 ->
  calculate_cost data provider model p c tenant_id
  = Some (mkDec ((p * a + c * b) * (100 - D) * 100) (-10)).
Proof.
  intros Hpr Hd Ha Hb HD Hp Hc.
  assert (H63 : 2 ^ 63 = 9223372036854775808) by reflexivity.
  assert (H28 : 10 ^ prec = 10000000000000000000000000000) by reflexivity.
  rewrite H63 in Hp, Hc.
  assert (Hpos : is_pos (mkDec D 0) = true).
  { unfold is_pos. cbn [coef]. destruct (Z.ltb_spec 0 D); [reflexivity | lia]. }
  assert (Hexact : undiscounted_unless_positive (mkDec a (-3)) (mkDec b (-3)) (mkDec D 0) p c
                   = mkDec ((p * a + c * b) * (100 - D)) (-8)).
  { unfold undiscounted_unless_positive. rewrite Hpos.
    unfold discounted. rewrite base_cost_milli, discount_factor_int. reflexivity. }
  assert (Hplaces : forall x, to_places (mkDec x (-8)) 10 = mkDec (x * 100) (-10))
    by reflexivity.
  rewrite calculate_cost_exact; try lia.
  - unfold exact_cost. rewrite Hpr, Hd. cbn [fst snd].
    now rewrite Hexact, Hplaces.
  - rewrite Hpr, Hd. cbn [fst snd]. unfold within_precision.
    rewrite Hexact, Hplaces. unfold discounted.
    rewrite base_cost_milli, discount_factor_int.
    unfold fits, mul_exact, per_thousand. cbn [coef expo]. rewrite H28.
    repeat split; nia.
Qed.

(** X4.  A whole-number discount is exact.  When the resolved prices are a
    and b thousandths per 1k tokens (0 <= a, b <= 1000), the tenant's
    discount is D percent for an integer 1 <= D <= 100, and the token
    counts fit a BIGINT column, the tenant's cost is exactly (100 - D)
    percent of the cost without tenant: no digit is lost to rounding. *)
Theorem integer_discount_exact data provider model p c tenant a b D :
  get_model_pricing data provider model = (mkDec a (-3), mkDec b (-3)) ->
  tenant_discount data (Some tenant) = mkDec D 0 ->
  0 <= a <= 1000 -> 0 <= b <= 1000 -> 1 <= D <= 100 ->
  0 <= p < 2 ^ 63 -> 0 <= c < 2 ^ 63 ->
  exists full reduced,
    calculate_cost data provider model p c None = Some (mkDec full (-10))
    /\ calculate_cost data provider model p c (Some tenant) = Some (mkDec reduced (-10))
    /\ reduced * 100 = full * (100 - D).
Proof.
  intros Hpr Hd Ha Hb HD Hp Hc.
  exists ((p * a + c * b) * 10000), ((p * a + c * b) * (100 - D) * 100).
  split; [| split].
  - now apply milli_cost.
  - now apply discounted_milli_cost.
  - lia.
Qed.

(** A 10 percent discount on the scenario of the specification: 0.0045
    instead of 0.0050. *)
Lemma integer_discount_exact_witness :
  exists full reduced,
    calculate_cost gold_pricing "bedrock" "anthropic.claude-3-sonnet" 1000 500 None
      = Some (mkDec full (-10))
    /\ calculate_cost gold_pricing "bedrock" "anthropic.claude-3-sonnet" 1000 500
         (Some "gold"%string) = Some (mkDec reduced (-10))
    /\ reduced * 100 = full * (100 - 10).
Proof.
  apply (integer_discount_exact gold_pricing "bedrock" "anthropic.claude-3-sonnet"
           1000 500 "gold" 2 6 10).
  - vm_compute. reflexivity.
  - vm_compute. reflexivity.
  - lia.
  - lia.
  - lia.
  - split; [lia | reflexivity].
  - split; [lia | reflexivity].
Defined.

(** X5.  Under the built-in pricing policy the cost does not decrease when
    a token count grows: for token counts that fit a BIGINT column,
    p <= p' and c <= c' give cost(p, c) <= cost(p', c'). *)
Theorem default_cost_monotone provider model tenant_id p c p' c' :
  0 <= p <= p' -> p' < 2 ^ 63 -> 0 <= c <= c' -> c' < 2 ^ 63 ->
  exists cost cost',
    calculate_cost _get_default_pricing provider model p c tenant_id
      = Some (mkDec cost (-10))
    /\ calculate_cost _get_default_pricing provider model p' c' tenant_id
       = Some (mkDec cost' (-10))
    /\ cost <= cost'.
Proof.
  intros Hp Hp' Hc Hc'.
  pose proof (default_discount tenant_id) as Hd.
  destruct (default_prices provider model) as [Hpr | Hpr].
  - exists ((p * 2 + c * 6) * 10000), ((p' * 2 + c' * 6) * 10000).
    split; [| split]; [apply milli_cost; try assumption; lia .. | lia].
  - exists ((p * 1 + c * 3) * 10000), ((p' * 1 + c' * 3) * 10000).
    split; [| split]; [apply milli_cost; try assumption; lia .. | lia].
Qed.

Lemma default_cost_monotone_witness :
  exists cost cost',
    calculate_cost _get_default_pricing "gemini" "gemini-1.5-pro" 10 20 None
      = Some (mkDec cost (-10))
    /\ calculate_cost _get_default_pricing "gemini" "gemini-1.5-pro" 11 20 None
       = Some (mkDec cost' (-10))
    /\ cost <= cost'.
Proof.
  apply (default_cost_monotone "gemini" "gemini-1.5-pro" None 10 20 11 20).
  - lia.
  - reflexivity.
  - lia.
  - reflexivity.
Defined.

End DiscountFacts.

(** ** Validation *)

Section ValidationFacts.

(** X6.  The provider of an event that passed validation is already a
    normalized provider name: pricing looks it up under the name the event
    carries. *)
Theorem validated_provider_is_normal fromisoformat payload event :
  validate fromisoformat payload = Some event ->
  _normalize_provider (ev_provider event) = ev_provider event.
Proof.
  intros Hv. destruct (validate_fields _ _ _ Hv) as (_ & _ & Hprov & _).
  repeat (apply elem_of_cons in Hprov as [-> | Hprov]; [reflexivity |]).
  inversion Hprov.
Qed.

Lemma validated_provider_is_normal_witness :
  validate parse_jan15 sample_payload = Some sample_event
  /\ _normalize_provider (ev_provider sample_event) = ev_provider sample_event.
Proof.
  assert (Hv : validate parse_jan15 sample_payload = Some sample_event)
    by (vm_compute; reflexivity).
  split; [exact Hv |]. exact (validated_provider_is_normal _ _ _ Hv).
Defined.

Lemma replace_Z_without s : has_Z s = false -> replace_Z s = s.
Proof.
  induction s as [| a s IH]; [reflexivity |]. cbn [has_Z replace_Z].
  destruct (Ascii.eqb a "Z"); [discriminate |]. cbn [orb].
  intros H. now rewrite IH.
Qed.

Lemma replace_Z_app s t : replace_Z (s ++ t) = (replace_Z s ++ replace_Z t)%string.
Proof.
  induction s as [| a s IH]; [reflexivity |].
  change (String a s ++ t)%string with (String a (s ++ t)). cbn [replace_Z].
  rewrite IH. destruct (Ascii.eqb a "Z"); reflexivity.
Qed.

(** X7.  Timestamps: a string without the letter Z goes to the ISO parser
    as it is; with a Z at its end it goes there with "+00:00" in place of
    the Z; and a value that is already a datetime is taken as it is. *)
Theorem parse_timestamp_Z fromisoformat s :
  has_Z s = false ->
  parse_timestamp fromisoformat (inl s) = fromisoformat s
  /\ parse_timestamp fromisoformat (inl (s ++ "Z")%string)
     = fromisoformat (s ++ "+00:00")%string
  /\ forall dt, parse_timestamp fromisoformat (inr dt) = Some dt.
Proof.
  intros Hs. unfold parse_timestamp.
  rewrite replace_Z_app, replace_Z_without by exact Hs.
  repeat split.
Qed.

Lemma parse_timestamp_Z_witness :
  has_Z "2024-01-15T10:00:00" = false
  /\ parse_timestamp parse_jan15 (inl "2024-01-15T10:00:00Z"%string) = Some jan15.
Proof.
  assert (Hs : has_Z "2024-01-15T10:00:00" = false) by reflexivity.
  split; [exact Hs |].
  destruct (parse_timestamp_Z parse_jan15 "2024-01-15T10:00:00" Hs) as (_ & Hz & _).
  change ("2024-01-15T10:00:00" ++ "Z")%string with "2024-01-15T10:00:00Z"%string in Hz.
  rewrite Hz. vm_compute. reflexivity.
Defined.

End ValidationFacts.

(** ** More on the daily job *)

Section MoreDailyFacts.

(** X8.  A run for one date never changes a row of another date. *)
Theorem daily_run_leaves_other_dates today raw (table : gmap _ DailyMetrics) d t d' p m c :
  d' <> d ->
  snd (DailyAggregationJob.run today raw table (Some d)) !! (t, d', p, m, c)
  = table !! (t, d', p, m, c).
Proof.
  intros Hd. rewrite daily_run_lookup.
  rewrite decide_False; [reflexivity |]. now intros [Heq _].
Qed.

Lemma daily_run_leaves_other_dates_witness :
  738901 <> 738900
  /\ snd (DailyAggregationJob.run 0 latency_rows december_rows (Some 738900))
       !! ("t1", 738901, "bedrock", "a", "aws")%string
     = december_rows !! ("t1", 738901, "bedrock", "a", "aws")%string.
Proof.
  assert (H : 738901 <> 738900) by lia.
  split; [exact H |].
  exact (daily_run_leaves_other_dates 0 latency_rows december_rows 738900
           "t1" 738901 "bedrock" "a" "aws" H).
Defined.

Lemma filter_none {A} (P : A -> Prop) `{!forall x, Decision (P x)} (l : list A) :
  (forall x, x ∈ l -> ~ P x) -> filter P l = [].
Proof.
  intros Hall. destruct (filter P l) as [| y l'] eqn:Hf; [reflexivity |].
  assert (Hy : y ∈ filter P l) by (rewrite Hf; left).
  apply list_elem_of_filter in Hy as [HP Hin]. now destruct (Hall y Hin).
Qed.

(** X9.  When no raw event falls on the target date the run writes
    nothing: it returns 0 and the table is the one it was given. *)
Theorem daily_run_nothing_to_do today raw (table : gmap _ DailyMetrics) d :
  (forall e, e ∈ raw -> dt_date (timestamp e) <> d) ->
  DailyAggregationJob.run today raw table (Some d) = (0, table).
Proof.
  intros Hnone. rewrite daily_run_unfold. unfold DailyAggregationJob.query.
  rewrite (filter_none (fun e => dt_date (timestamp e) = d)) by exact Hnone.
  reflexivity.
Qed.

Lemma daily_run_nothing_to_do_witness :
  (forall e, e ∈ latency_rows -> dt_date (timestamp e) <> 738899)
  /\ DailyAggregationJob.run 0 latency_rows december_rows (Some 738899)
     = (0, december_rows).
Proof.
  assert (H : forall e, e ∈ latency_rows -> dt_date (timestamp e) <> 738899).
  { intros e He. unfold latency_rows in He.
    repeat (apply elem_of_cons in He as [-> | He]; [cbn; lia |]).
    inversion He. }
  split; [exact H |].
  exact (daily_run_nothing_to_do 0 latency_rows december_rows 738899 H).
Defined.

(** X10.  Runs for two dates commute: whichever of the two days is
    aggregated first, the table at the end is the same. *)
Theorem daily_runs_commute today raw (table : gmap _ DailyMetrics) d1 d2 :
  snd (DailyAggregationJob.run today raw
         (snd (DailyAggregationJob.run today raw table (Some d1))) (Some d2))
  = snd (DailyAggregationJob.run today raw
           (snd (DailyAggregationJob.run today raw table (Some d2))) (Some d1)).
Proof.
  apply map_eq. intros [[[[t d] p] m] c]. rewrite !daily_run_lookup.
  destruct (decide (d = d2 /\ _)) as [[E2 H2] | H2];
    destruct (decide (d = d1 /\ _)) as [[E1 H1] | H1]; try reflexivity.
  subst d1 d2. reflexivity.
Qed.

(** X11.  New raw events on other days do not change what a run writes for
    its date. *)
Theorem daily_run_ignores_other_days today raw extra (table : gmap _ DailyMetrics) d :
  (forall e, e ∈ extra -> dt_date (timestamp e) <> d) ->
  DailyAggregationJob.run today (raw ++ extra) table (Some d)
  = DailyAggregationJob.run today raw table (Some d).
Proof.
  intros Hextra. rewrite !daily_run_unfold.
  assert (Hq : DailyAggregationJob.query d (raw ++ extra)
               = DailyAggregationJob.query d raw).
  { unfold DailyAggregationJob.query, DailyAggregationJob.partition.
    rewrite filter_app.
    rewrite (filter_none (fun e => dt_date (timestamp e) = d) extra) by exact Hextra.
    now rewrite app_nil_r. }
  now rewrite Hq.
Qed.

Lemma daily_run_ignores_other_days_witness :
  (forall e, e ∈ [raw_row 9 "t9" "z" 1 1 738777 None] -> dt_date (timestamp e) <> 738900)
  /\ DailyAggregationJob.run 0 (latency_rows ++ [raw_row 9 "t9" "z" 1 1 738777 None])
       december_rows (Some 738900)
     = DailyAggregationJob.run 0 latency_rows december_rows (Some 738900).
Proof.
  assert (H : forall e, e ∈ [raw_row 9 "t9" "z" 1 1 738777 None] ->
                        dt_date (timestamp e) <> 738900).
  { intros e He. apply elem_of_cons in He as [-> | He]; [cbn; lia | inversion He]. }
  split; [exact H |].
  exact (daily_run_ignores_other_days 0 latency_rows _ december_rows 738900 H).
Defined.

(** X12.  A backfill whose end date lies before its start date runs
    nothing: it returns 0 and leaves the table alone. *)
Theorem backfill_empty_range today raw (table : gmap _ DailyMetrics) d1 dn :
  dn < d1 ->
  DailyAggregationJob.backfill today raw table d1 dn = (0, table).
Proof.
  intros Hlt. unfold DailyAggregationJob.backfill.
  rewrite backfill_loop_step. now rewrite decide_False by lia.
Qed.

Lemma backfill_empty_range_witness :
  738899 < 738900
  /\ DailyAggregationJob.backfill 0 latency_rows december_rows 738900 738899
     = (0, december_rows).
Proof.
  assert (H : 738899 < 738900) by lia.
  split; [exact H |].
  exact (backfill_empty_range 0 latency_rows december_rows 738900 738899 H).
Defined.






End MoreDailyFacts.

Section ConservationFacts.

Lemma total_cons x l : total (x :: l) = x + total l.
Proof. reflexivity. Qed.

Lemma total_Permutation l l' : l ≡ₚ l' -> total l = total l'.
Proof.
  induction 1 as [| x l l' _ IH | x y l | l l' l'' _ IH1 _ IH2];
    rewrite ?total_cons; lia.
Qed.

Lemma total_map_add {A} (f g : A -> Z) l :
  total (map (fun x => f x + g x) l) = total (map f l) + total (map g l).
Proof.
  induction l as [| x l IH]; cbn [map]; rewrite ?total_cons; [reflexivity | lia].
Qed.

Lemma total_ones {A} (l : list A) : total (map (fun _ => 1) l) = Z.of_nat (length l).
Proof.
  induction l as [| x l IH]; cbn [map length]; rewrite ?total_cons; [reflexivity | lia].
Qed.

Lemma total_indicator {K} `{EqDecision K} (k : K) (v : Z) (groups : list K) :
  NoDup groups ->
  total (map (fun g => if decide (k = g) then v else 0) groups)
  = if decide (k ∈ groups) then v else 0.
Proof.
  induction 1 as [| g groups Hnot _ IH]; cbn [map].
  - rewrite decide_False; [reflexivity | inversion 1].
  - rewrite total_cons, IH.
    destruct (decide (k = g)) as [-> | Hne].
    + rewrite decide_False by exact Hnot.
      rewrite decide_True by left. lia.
    + destruct (decide (k ∈ groups)) as [Hin | Hout].
      * rewrite decide_True by now right. lia.
      * rewrite decide_False; [lia |].
        intros Hin. apply elem_of_cons in Hin as [? | ?]; contradiction.
Qed.

Lemma total_zero {K} (h : K -> Z) (groups : list K) :
  (forall g, h g = 0) -> total (map h groups) = 0.
Proof.
  intros Hz. induction groups as [| g groups IH]; [reflexivity |].
  cbn [map]. rewrite total_cons, Hz, IH. reflexivity.
Qed.

(** Summing group by group is summing over everything, when every element
    belongs to one of the groups. *)
Lemma total_by_groups {A K} `{EqDecision K} (k : A -> K) (f : A -> Z)
    (l : list A) (groups : list K) :
  NoDup groups -> (forall x, x ∈ l -> k x ∈ groups) ->
  total (map (fun g => total (map f (filter (fun x => k x = g) l))) groups)
  = total (map f l).
Proof.
  intros Hnd. induction l as [| x l IH]; intros Hin.
  - apply total_zero. reflexivity.
  - cbn [map]. rewrite total_cons, <- IH by (intros y Hy; apply Hin; now right).
    assert (Hx : f x = total (map (fun g => if decide (k x = g) then f x else 0) groups)).
    { rewrite (total_indicator (k x) (f x) groups Hnd).
      rewrite decide_True; [reflexivity |]. apply Hin. left. }
    rewrite Hx at 1. rewrite <- total_map_add.
    f_equal. apply map_ext. intros g. rewrite filter_cons.
    destruct (decide (k x = g)); [cbn [map]; now rewrite total_cons | lia].
Qed.

Lemma daily_rows_from_empty today raw d :
  map_to_list (snd (DailyAggregationJob.run today raw ∅ (Some d)))
  ≡ₚ map (fun g => (let '(t, p, m, c) := g in (t, d, p, m, c),
                    fresh_daily (DailyAggregationJob.partition d raw g)))
       (remove_dups (map DailyAggregationJob.group_of
                       (filter (fun e => dt_date (timestamp e) = d) raw))).
Proof.
  set (groups := remove_dups _).
  set (rows := map _ groups).
  assert (Hnd : NoDup rows.*1).
  { subst rows. rewrite <- list_fmap_compose.
    apply NoDup_fmap_2; [| apply NoDup_remove_dups].
    intros [[[t p] m] c] [[[t' p'] m'] c']. cbn. congruence. }
  rewrite <- (map_to_list_to_map rows Hnd).
  assert (Heq : snd (DailyAggregationJob.run today raw ∅ (Some d)) = list_to_map rows);
    [| now rewrite Heq].
  apply map_eq. intros [[[[t d'] p] m] c]. rewrite daily_run_lookup, insert_values_fresh.
  destruct (decide (d' = d /\ _)) as [[-> Hne] | Hnot].
  - symmetry. apply elem_of_list_to_map; [exact Hnd |].
    subst rows. apply list_elem_of_fmap. exists (t, p, m, c). split; [reflexivity |].
    subst groups. rewrite elem_of_remove_dups, list_elem_of_fmap.
    unfold DailyAggregationJob.partition in Hne.
    apply filter_nonempty in Hne as (e & He & Hg). now exists e.
  - rewrite lookup_empty. symmetry. apply not_elem_of_list_to_map.
    subst rows. rewrite <- list_fmap_compose. intros Hin.
    apply list_elem_of_fmap in Hin as ([[[t' p'] m'] c'] & Heq & Hin). cbn in Heq.
    injection Heq as -> -> -> -> ->. apply Hnot. split; [reflexivity |].
    subst groups. rewrite elem_of_remove_dups, list_elem_of_fmap in Hin.
    destruct Hin as (e & Hg & He).
    unfold DailyAggregationJob.partition. apply filter_nonempty. now exists e.
Qed.

(** X14.  Aggregating a day into an empty table conserves the totals: over
    the rows written, the requests add up to the number of raw events of
    the day, and the prompt, completion and total tokens and the cost add
    up to those of the day's raw events. *)
Theorem daily_run_conserves_totals today raw d :
  let rows := map_to_list (snd (DailyAggregationJob.run today raw ∅ (Some d))) in
  let events := filter (fun e => dt_date (timestamp e) = d) raw in
  total (map (fun r => d_total_requests (snd r)) rows) = Z.of_nat (length events)
  /\ total (map (fun r => d_total_prompt_tokens (snd r)) rows)
     = total (map prompt_tokens events)
  /\ total (map (fun r => d_total_completion_tokens (snd r)) rows)
     = total (map completion_tokens events)
  /\ total (map (fun r => d_total_tokens (snd r)) rows) = total (map total_tokens events)
  /\ total (map (fun r => d_total_cost (snd r)) rows) = total (map calculated_cost events).
Proof.
  cbv zeta.
  set (events := filter (fun e => dt_date (timestamp e) = d) raw).
  set (groups := remove_dups (map DailyAggregationJob.group_of events)).
  assert (Hnd : NoDup groups) by apply NoDup_remove_dups.
  assert (Hin : forall e, e ∈ events -> DailyAggregationJob.group_of e ∈ groups).
  { intros e He. subst groups. rewrite elem_of_remove_dups, list_elem_of_fmap. now exists e. }
  assert (Hsum : forall (f : DailyMetrics -> Z) (g : TokenUsageRaw -> Z),
             (forall evs, f (fresh_daily evs) = total (map g evs)) ->
             total (map (fun r => f (snd r))
                      (map_to_list (snd (DailyAggregationJob.run today raw ∅ (Some d)))))
             = total (map g events)).
  { intros f g Hfg.
    etrans.
    { apply total_Permutation.
      exact (fmap_Permutation (fun r => f (snd r)) _ _ (daily_rows_from_empty today raw d)). }
    fold events. fold groups.
    rewrite <- (total_by_groups DailyAggregationJob.group_of g events groups Hnd Hin).
    f_equal. rewrite <- list_fmap_compose. apply map_ext. intros grp. cbn.
    now rewrite Hfg. }
  repeat split.
  - rewrite (Hsum d_total_requests (fun _ => 1)); [apply total_ones |].
    intros evs. cbn. now rewrite total_ones.
  - now apply Hsum.
  - now apply Hsum.
  - now apply Hsum.
  - now apply Hsum.
Qed.

End ConservationFacts.

Section PipelineFacts.




End PipelineFacts.

(** ** More on the monthly job *)

Section MoreMonthlyFacts.

Lemma monthly_run_valid today daily (table : gmap _ MonthlyMetrics) y m r :
  MonthlyAggregationJob.run today daily table (Some y) (Some m) = Some r ->
  1 <= m <= 12.
Proof.
  unfold MonthlyAggregationJob.run, MonthlyAggregationJob.month_bounds.
  cbn [mbind option_bind].
  destruct (mkdate y m 1) as [first |] eqn:Hfirst; [| discriminate].
  intros _. now apply mkdate_inv in Hfirst.
Qed.

(** X16.  The monthly job is idempotent: run a second time for the same
    month over the same daily rows, on the table the first run left, it
    returns the same count and leaves the same table. *)
Theorem monthly_run_idempotent today daily (table : gmap _ MonthlyMetrics) y m n table' :
  MonthlyAggregationJob.run today daily table (Some y) (Some m) = Some (n, table') ->
  MonthlyAggregationJob.run today daily table' (Some y) (Some m) = Some (n, table').
Proof.
  intros Hrun. pose proof (monthly_run_valid _ _ _ _ _ _ Hrun) as Hm.
  destruct (MonthlyAggregationJob.run today daily table' (Some y) (Some m))
    as [[n2 table2] |] eqn:Hrun2.
  2:{ rewrite monthly_run_unfold in Hrun2 by exact Hm. discriminate Hrun2. }
  f_equal. f_equal.
  - rewrite monthly_run_unfold in Hrun, Hrun2 by exact Hm.
    injection Hrun as <- _. injection Hrun2 as <- _. reflexivity.
  - apply map_eq. intros [[[[t y'] m'] p] mo].
    rewrite (monthly_run_lookup _ _ _ _ _ _ _ t y' m' p mo Hm Hrun2).
    rewrite (monthly_run_lookup _ _ _ _ _ _ _ t y' m' p mo Hm Hrun).
    destruct (decide (y' = y /\ m' = m /\ _)); reflexivity.
Qed.

Lemma monthly_run_idempotent_witness :
  exists n table',
    MonthlyAggregationJob.run 0 december_rows ∅ (Some 2023) (Some 12) = Some (n, table')
    /\ MonthlyAggregationJob.run 0 december_rows table' (Some 2023) (Some 12)
       = Some (n, table').
Proof.
  destruct (MonthlyAggregationJob.run 0 december_rows ∅ (Some 2023) (Some 12))
    as [[n table'] |] eqn:Hrun.
  - exists n, table'. split; [reflexivity |].
    exact (monthly_run_idempotent 0 december_rows ∅ 2023 12 n table' Hrun).
  - rewrite monthly_run_unfold in Hrun by lia. discriminate Hrun.
Defined.

(** X17.  A month outside 1..12 is refused: the job raises, here [None],
    and writes nothing. *)
Theorem monthly_run_invalid_month today daily (table : gmap _ MonthlyMetrics) y m :
  ~ (1 <= m <= 12) ->
  MonthlyAggregationJob.run today daily table (Some y) (Some m) = None.
Proof.
  intros Hm.
  destruct (MonthlyAggregationJob.run today daily table (Some y) (Some m)) as [r |] eqn:Hrun;
    [| reflexivity].
  now apply monthly_run_valid in Hrun.
Qed.

Lemma monthly_run_invalid_month_witness :
  ~ (1 <= 13 <= 12)
  /\ MonthlyAggregationJob.run 0 december_rows ∅ (Some 2023) (Some 13) = None.
Proof.
  assert (H : ~ (1 <= 13 <= 12)) by lia.
  split; [exact H |].
  exact (monthly_run_invalid_month 0 december_rows ∅ 2023 13 H).
Defined.

(** X18.  A monthly run for one month never changes a row of another
    year or month. *)
Theorem monthly_run_leaves_other_months today daily (table : gmap _ MonthlyMetrics)
    y m n table' t y' m' p mo :
  MonthlyAggregationJob.run today daily table (Some y) (Some m) = Some (n, table') ->
  (y', m') <> (y, m) ->
  table' !! (t, y', m', p, mo) = table !! (t, y', m', p, mo).
Proof.
  intros Hrun Hne. pose proof (monthly_run_valid _ _ _ _ _ _ Hrun) as Hm.
  rewrite (monthly_run_lookup _ _ _ _ _ _ _ t y' m' p mo Hm Hrun).
  rewrite decide_False; [reflexivity |]. intros (-> & -> & _). now apply Hne.
Qed.

Lemma monthly_run_leaves_other_months_witness :
  exists n table',
    MonthlyAggregationJob.run 0 december_rows ∅ (Some 2023) (Some 12) = Some (n, table')
    /\ (2023, 11) <> (2023, 12)
    /\ table' !! ("t1", 2023, 11, "bedrock", "a")%string = None.
Proof.
  destruct (MonthlyAggregationJob.run 0 december_rows ∅ (Some 2023) (Some 12))
    as [[n table'] |] eqn:Hrun.
  - exists n, table'. split; [reflexivity |].
    assert (Hne : (2023, 11) <> (2023, 12)) by congruence.
    split; [exact Hne |].
    rewrite (monthly_run_leaves_other_months 0 december_rows ∅ 2023 12 n table'
               "t1" 2023 11 "bedrock" "a" Hrun Hne).
    apply lookup_empty.
  - rewrite monthly_run_unfold in Hrun by lia. discriminate Hrun.
Defined.

End MoreMonthlyFacts.

Section DateFacts.

Import CalendarSpec.

Lemma ord2ymd_month_day N :
  ord2ymd N =
  let n0 := N - 1 in
  let n400 := n0 / 146097 in
  let r1 := n0 mod 146097 in
  let n100 := r1 / 36524 in
  let r2 := r1 mod 36524 in
  let n4 := r2 / 1461 in
  let r3 := r2 mod 1461 in
  let n1 := r3 / 365 in
  let r4 := r3 mod 365 in
  let year := n400 * 400 + 1 + n100 * 100 + n4 * 4 + n1 in
  if (n1 =? 4) || (n100 =? 4) then (year - 1, 12, 31)
  else
    (year,
     fst (month_day ((n1 =? 3) && (negb (n4 =? 24) || (n100 =? 3))) r4),
     snd (month_day ((n1 =? 3) && (negb (n4 =? 24) || (n100 =? 3))) r4)).
Proof.
  unfold ord2ymd, month_day. cbv zeta.
  destruct (_ || _); [reflexivity |].
  destruct (_ <? _); reflexivity.
Qed.

(** Within a year, [month_day] inverts the count of the days before a
    month: checked over the 2 * 365 days there are. *)
Lemma month_day_spec (leap : bool) (k : Z) :
  0 <= k < 365 ->
  let m := fst (month_day leap k) in
  let d := snd (month_day leap k) in
  1 <= m <= 12
  /\ 1 <= d
  /\ d <= (if m =? 2 then (if leap then 29 else 28)
           else if (m =? 4) || (m =? 6) || (m =? 9) || (m =? 11) then 30
           else 31)
  /\ nth (Z.to_nat m) [0; 0; 31; 59; 90; 120; 151; 181; 212; 243; 273; 304; 334] 0
     + (if (2 <? m) && leap then 1 else 0) + d - 1 = k.
Proof.
  intros Hk m d.
  assert (Hall : forallb (fun leap => forallb (fun k =>
     let m := fst (month_day leap k) in
     let d := snd (month_day leap k) in
     (1 <=? m) && (m <=? 12) && (1 <=? d)
     && (d <=? (if m =? 2 then (if leap then 29 else 28)
                else if (m =? 4) || (m =? 6) || (m =? 9) || (m =? 11) then 30
                else 31))
     && (nth (Z.to_nat m) [0; 0; 31; 59; 90; 120; 151; 181; 212; 243; 273; 304; 334] 0
         + (if (2 <? m) && leap then 1 else 0) + d - 1 =? k))
     (seqZ 0 365)) [true; false] = true) by (vm_compute; reflexivity).
  rewrite forallb_forall in Hall.
  specialize (Hall leap ltac:(destruct leap; cbn; tauto)).
  rewrite forallb_forall in Hall.
  specialize (Hall k ltac:(apply list_elem_of_In, elem_of_seqZ; lia)).
  cbv zeta in Hall. fold m d in Hall.
  apply andb_prop in Hall as [H5 H6]. apply andb_prop in H5 as [H5 H4].
  apply andb_prop in H5 as [H5 H3]. apply andb_prop in H5 as [H1 H2].
  apply Z.leb_le in H1, H2, H3, H4. apply Z.eqb_eq in H6.
  repeat split; assumption.
Qed.

Lemma month_day_days_before (leap : bool) (m d : Z) :
  1 <= m <= 12 ->
  1 <= d <= (if m =? 2 then (if leap then 29 else 28)
             else if (m =? 4) || (m =? 6) || (m =? 9) || (m =? 11) then 30
             else 31) ->
  nth (Z.to_nat m) [0; 0; 31; 59; 90; 120; 151; 181; 212; 243; 273; 304; 334] 0
  + (if (2 <? m) && leap then 1 else 0) + d - 1 < 365 ->
  month_day leap
    (nth (Z.to_nat m) [0; 0; 31; 59; 90; 120; 151; 181; 212; 243; 273; 304; 334] 0
     + (if (2 <? m) && leap then 1 else 0) + d - 1) = (m, d).
Proof.
  intros Hm Hd Hk.
  assert (Hall : forallb (fun leap => forallb (fun m => forallb (fun d =>
     let k := nth (Z.to_nat m) [0; 0; 31; 59; 90; 120; 151; 181; 212; 243; 273; 304; 334] 0
              + (if (2 <? m) && leap then 1 else 0) + d - 1 in
     implb ((d <=? (if m =? 2 then (if leap then 29 else 28)
                    else if (m =? 4) || (m =? 6) || (m =? 9) || (m =? 11) then 30
                    else 31)) && (k <? 365))
       ((fst (month_day leap k) =? m) && (snd (month_day leap k) =? d)))
     (seqZ 1 31)) (seqZ 1 12)) [true; false] = true) by (vm_compute; reflexivity).
  rewrite forallb_forall in Hall.
  specialize (Hall leap ltac:(destruct leap; cbn; tauto)).
  rewrite forallb_forall in Hall.
  specialize (Hall m ltac:(apply list_elem_of_In, elem_of_seqZ; lia)).
  rewrite forallb_forall in Hall.
  assert (Hd31 : d <= 31).
  { destruct (m =? 2); [destruct leap; lia |]. destruct (_ || _); lia. }
  specialize (Hall d ltac:(apply list_elem_of_In, elem_of_seqZ; lia)).
  cbv zeta in Hall.
  destruct (Z.leb_spec d (if m =? 2 then (if leap then 29 else 28)
                    else if (m =? 4) || (m =? 6) || (m =? 9) || (m =? 11) then 30
                    else 31)) as [_ | Hbad]; [| lia].
  destruct (Z.ltb_spec (nth (Z.to_nat m) [0; 0; 31; 59; 90; 120; 151; 181; 212; 243; 273; 304; 334] 0
              + (if (2 <? m) && leap then 1 else 0) + d - 1) 365) as [_ | Hbad]; [| lia].
  cbn [andb implb] in Hall.
  apply andb_prop in Hall as [H1 H2]. apply Z.eqb_eq in H1, H2.
  destruct (month_day leap _) as [m' d']. cbn [fst snd] in H1, H2. congruence.
Qed.

Lemma days_before_year_parts a b c e :
  0 <= b < 4 -> 0 <= c < 25 -> 0 <= e < 4 ->
  days_before_year (400 * a + 100 * b + 4 * c + e + 1)
  = 146097 * a + 36524 * b + 1461 * c + 365 * e.
Proof.
  intros Hb Hc He. unfold days_before_year. cbv zeta.
  Z.div_mod_to_equations. lia.
Qed.

Lemma is_leap_parts a b c e :
  0 <= b < 4 -> 0 <= c < 25 -> 0 <= e < 4 ->
  is_leap (400 * a + 100 * b + 4 * c + e + 1)
  = (e =? 3) && (negb (c =? 24) || (b =? 3)).
Proof.
  intros Hb Hc He. unfold is_leap.
  destruct (Z.eqb_spec ((400 * a + 100 * b + 4 * c + e + 1) mod 4) 0) as [H4 | H4];
    destruct (Z.eqb_spec ((400 * a + 100 * b + 4 * c + e + 1) mod 100) 0) as [H100 | H100];
    destruct (Z.eqb_spec ((400 * a + 100 * b + 4 * c + e + 1) mod 400) 0) as [H400 | H400];
    destruct (Z.eqb_spec e 3) as [E3 | E3];
    destruct (Z.eqb_spec c 24) as [C24 | C24];
    destruct (Z.eqb_spec b 3) as [B3 | B3];
    cbn [andb orb negb]; try reflexivity; exfalso;
    Z.div_mod_to_equations; lia.
Qed.

(** The parts of a year: [y - 1 = 400 a + 100 b + 4 c + e]. *)
Lemma year_parts y :
  exists a b c e,
    0 <= b < 4 /\ 0 <= c < 25 /\ 0 <= e < 4
    /\ y = 400 * a + 100 * b + 4 * c + e + 1.
Proof.
  exists ((y - 1) / 400), ((y - 1) mod 400 / 100), ((y - 1) mod 100 / 4), ((y - 1) mod 4).
  Z.div_mod_to_equations. lia.
Qed.

(** [_ord2ymd] on a day that is not the 366th of its year. *)
Lemma ord2ymd_parts a b c e k :
  0 <= b < 4 -> 0 <= c < 25 -> 0 <= e < 4 -> 0 <= k < 365 ->
  ord2ymd (146097 * a + 36524 * b + 1461 * c + 365 * e + k + 1)
  = (400 * a + 100 * b + 4 * c + e + 1,
     fst (month_day ((e =? 3) && (negb (c =? 24) || (b =? 3))) k),
     snd (month_day ((e =? 3) && (negb (c =? 24) || (b =? 3))) k)).
Proof.
  intros Hb Hc He Hk. rewrite ord2ymd_month_day. cbv zeta.
  set (N := 146097 * a + 36524 * b + 1461 * c + 365 * e + k + 1 - 1).
  assert (H400 : N / 146097 = a) by (subst N; Z.div_mod_to_equations; lia).
  assert (Hr1 : N mod 146097 = 36524 * b + 1461 * c + 365 * e + k)
    by (subst N; Z.div_mod_to_equations; lia).
  rewrite H400, Hr1.
  assert (H100 : (36524 * b + 1461 * c + 365 * e + k) / 36524 = b)
    by (Z.div_mod_to_equations; lia).
  assert (Hr2 : (36524 * b + 1461 * c + 365 * e + k) mod 36524 = 1461 * c + 365 * e + k)
    by (Z.div_mod_to_equations; lia).
  rewrite H100, Hr2.
  assert (H4 : (1461 * c + 365 * e + k) / 1461 = c) by (Z.div_mod_to_equations; lia).
  assert (Hr3 : (1461 * c + 365 * e + k) mod 1461 = 365 * e + k)
    by (Z.div_mod_to_equations; lia).
  rewrite H4, Hr3.
  assert (H1 : (365 * e + k) / 365 = e) by (Z.div_mod_to_equations; lia).
  assert (Hr4 : (365 * e + k) mod 365 = k) by (Z.div_mod_to_equations; lia).
  rewrite H1, Hr4.
  destruct (Z.eqb_spec e 4) as [? | _]; [lia |].
  destruct (Z.eqb_spec b 4) as [? | _]; [lia |].
  cbn [orb]. do 2 f_equal. lia.
Qed.

(** [_ord2ymd] on the 366th day of a leap year. *)
Lemma ord2ymd_last a b c :
  0 <= b < 4 -> 0 <= c < 25 -> c <> 24 \/ b = 3 ->
  ord2ymd (146097 * a + 36524 * b + 1461 * c + 365 * 3 + 365 + 1)
  = (400 * a + 100 * b + 4 * c + 3 + 1, 12, 31).
Proof.
  intros Hb Hc Hleap. rewrite ord2ymd_month_day. cbv zeta.
  set (N := 146097 * a + 36524 * b + 1461 * c + 365 * 3 + 365 + 1 - 1).
  assert (H400 : N / 146097 = a) by (subst N; Z.div_mod_to_equations; lia).
  assert (Hr1 : N mod 146097 = 36524 * b + 1461 * c + 1460)
    by (subst N; Z.div_mod_to_equations; lia).
  rewrite H400, Hr1.
  destruct (Z.eq_dec c 24) as [-> | Hc24].
  - assert (b = 3) as -> by lia.
    change ((36524 * 3 + 1461 * 24 + 1460) / 36524) with 4.
    change ((36524 * 3 + 1461 * 24 + 1460) mod 36524) with 0.
    change (0 mod 1461) with 0. change (0 / 1461) with 0.
    change (0 / 365) with 0. change (4 =? 4) with true.
    rewrite orb_true_r. do 2 f_equal. lia.
  - assert (H100 : (36524 * b + 1461 * c + 1460) / 36524 = b)
      by (Z.div_mod_to_equations; lia).
    assert (Hr2 : (36524 * b + 1461 * c + 1460) mod 36524 = 1461 * c + 1460)
      by (Z.div_mod_to_equations; lia).
    rewrite H100, Hr2.
    assert (H4 : (1461 * c + 1460) / 1461 = c) by (Z.div_mod_to_equations; lia).
    assert (Hr3 : (1461 * c + 1460) mod 1461 = 1460) by (Z.div_mod_to_equations; lia).
    rewrite H4, Hr3. change (1460 / 365) with 4. change (4 =? 4) with true.
    cbn [orb]. do 2 f_equal. lia.
Qed.

(** Every ordinal is a day of a year in one of the two forms above. *)
Lemma ordinal_parts n :
  (exists a b c e k,
      (0 <= b < 4 /\ 0 <= c < 25 /\ 0 <= e < 4 /\ 0 <= k < 365)
      /\ n = 146097 * a + 36524 * b + 1461 * c + 365 * e + k + 1)
  \/ (exists a b c,
         (0 <= b < 4 /\ 0 <= c < 25 /\ (c <> 24 \/ b = 3))
         /\ n = 146097 * a + 36524 * b + 1461 * c + 365 * 3 + 365 + 1).
Proof.
  set (a := (n - 1) / 146097). set (r1 := (n - 1) mod 146097).
  destruct (Z.eq_dec r1 146096) as [E1 | N1].
  { right. exists a, 3, 24. subst a r1. split; [lia |]. Z.div_mod_to_equations. lia. }
  set (b := r1 / 36524). set (r2 := r1 mod 36524).
  set (c := r2 / 1461). set (r3 := r2 mod 1461).
  destruct (Z.eq_dec r3 1460) as [E3 | N3].
  { right. exists a, b, c. subst a b c r3 r2 r1. split.
    - Z.div_mod_to_equations. lia.
    - Z.div_mod_to_equations. lia. }
  left. exists a, b, c, (r3 / 365), (r3 mod 365).
  subst a b c r3 r2 r1. split.
  - Z.div_mod_to_equations. lia.
  - Z.div_mod_to_equations. lia.
Qed.

(** [date(y, m, d).year], [.month] and [.day] give [y], [m] and [d] back. *)
Lemma ord2ymd_mkdate y m d n :
  mkdate y m d = Some n -> ord2ymd n = (y, m, d).
Proof.
  intros H. apply mkdate_inv in H as (Hm & Hd & ->).
  destruct (year_parts y) as (a & b & c & e & Hb & Hc & He & ->).
  rewrite days_before_year_parts by assumption.
  unfold days_before_month, days_in_month in *.
  rewrite is_leap_parts in * by assumption.
  set (leap := (e =? 3) && (negb (c =? 24) || (b =? 3))) in *.
  set (k := nth (Z.to_nat m) [0; 0; 31; 59; 90; 120; 151; 181; 212; 243; 273; 304; 334] 0
            + (if (2 <? m) && leap then 1 else 0) + d - 1).
  assert (Hk0 : 0 <= k).
  { subst k. destruct (month_cases m Hm) as
      [-> | [-> | [-> | [-> | [-> | [-> | [-> | [-> | [-> | [-> | [-> | ->]]]]]]]]]]];
      simpl; destruct leap; simpl; lia. }
  destruct (Z.lt_ge_cases k 365) as [Hk | Hk].
  - replace (146097 * a + 36524 * b + 1461 * c + 365 * e
             + (nth (Z.to_nat m) [0; 0; 31; 59; 90; 120; 151; 181; 212; 243; 273; 304; 334] 0
                + (if (2 <? m) && leap then 1 else 0)) + d)
      with (146097 * a + 36524 * b + 1461 * c + 365 * e + k + 1) by (subst k; lia).
    rewrite ord2ymd_parts by (try assumption; lia).
    fold leap. subst k. rewrite month_day_days_before by assumption. reflexivity.
  - assert (Hlast : m = 12 /\ d = 31 /\ leap = true).
    { subst k. destruct (month_cases m Hm) as
        [-> | [-> | [-> | [-> | [-> | [-> | [-> | [-> | [-> | [-> | [-> | ->]]]]]]]]]]];
        simpl in Hd, Hk; destruct leap; simpl in Hd, Hk; lia. }
    destruct Hlast as (-> & -> & Hleap). rewrite Hleap. subst leap.
    apply andb_prop in Hleap as [E3 Hcb]. apply Z.eqb_eq in E3. subst e.
    assert (c <> 24 \/ b = 3).
    { apply orb_prop in Hcb as [Hc24 | Hb3].
      - left. intros ->. discriminate.
      - right. apply Z.eqb_eq in Hb3. exact Hb3. }
    replace (146097 * a + 36524 * b + 1461 * c + 365 * 3
             + (nth (Z.to_nat 12) [0; 0; 31; 59; 90; 120; 151; 181; 212; 243; 273; 304; 334] 0
                + (if (2 <? 12) && true then 1 else 0)) + 31)
      with (146097 * a + 36524 * b + 1461 * c + 365 * 3 + 365 + 1) by (simpl; lia).
    apply ord2ymd_last; assumption.
Qed.

(** Every ordinal is the date that [_ord2ymd] makes of it. *)
Lemma mkdate_ord2ymd n y m d :
  ord2ymd n = (y, m, d) -> mkdate y m d = Some n.
Proof.
  destruct (ordinal_parts n) as
    [(a & b & c & e & k & (Hb & Hc & He & Hk) & ->) | (a & b & c & (Hb & Hc & Hleap) & ->)].
  - rewrite ord2ymd_parts by assumption. intros [= <- <- <-].
    pose proof (month_day_spec ((e =? 3) && (negb (c =? 24) || (b =? 3))) k Hk)
      as (Hm & Hd1 & Hd2 & Hord).
    cbv zeta in Hm, Hd1, Hd2, Hord.
    rewrite mkdate_Some.
    + rewrite days_before_year_parts by assumption. unfold days_before_month.
      rewrite is_leap_parts by assumption. f_equal. lia.
    + exact Hm.
    + unfold days_in_month. rewrite is_leap_parts by assumption. lia.
  - rewrite ord2ymd_last by assumption. intros [= <- <- <-].
    assert (Hl : is_leap (400 * a + 100 * b + 4 * c + 3 + 1) = true).
    { rewrite is_leap_parts by lia. change (3 =? 3) with true. cbn [andb].
      destruct Hleap as [Hc24 | ->].
      - destruct (Z.eqb_spec c 24); [contradiction | reflexivity].
      - apply orb_true_r. }
    rewrite mkdate_Some.
    + rewrite days_before_year_parts by lia. unfold days_before_month.
      rewrite Hl. simpl. f_equal. lia.
    + lia.
    + unfold days_in_month. simpl. lia.
Qed.

Lemma month_of_bounds n : 1 <= month_of n <= 12.
Proof.
  destruct (ord2ymd n) as [[y m] d] eqn:E.
  pose proof (mkdate_ord2ymd _ _ _ _ E) as E'. apply mkdate_inv in E'.
  unfold month_of. rewrite E. cbn [fst snd]. lia.
Qed.

(** The day before the first of a month is in the month before. *)
Lemma day_before_month y m :
  1 <= m <= 12 ->
  ord2ymd (days_before_year y + days_before_month y m)
  = if m =? 1 then (y - 1, 12, 31) else (y, m - 1, days_in_month y (m - 1)).
Proof.
  intros Hm.
  destruct (Z.eqb_spec m 1) as [-> | Hne]; apply ord2ymd_mkdate.
  - rewrite mkdate_Some.
    + f_equal. pose proof (days_before_year_succ (y - 1)) as Hs.
      replace (y - 1 + 1) with y in Hs by lia. rewrite Hs.
      pose proof (days_before_december (y - 1)) as Hdec.
      change (days_in_month (y - 1) 12) with 31 in Hdec.
      change (days_before_month y 1) with
        (0 + (if (2 <? 1) && is_leap y then 1 else 0)).
      change (2 <? 1) with false. cbn [andb]. lia.
    + lia.
    + change (days_in_month (y - 1) 12) with 31. lia.
  - pose proof (days_in_month_bounds y (m - 1)).
    rewrite mkdate_Some by lia. f_equal.
    pose proof (days_before_month_succ y (m - 1) ltac:(lia)) as Hs.
    replace (m - 1 + 1) with m in Hs by lia. lia.
Qed.

Lemma previous_month_value today :
  MonthlyAggregationJob.previous_month today = Some (Scheduler.report_period today).
Proof.
  unfold MonthlyAggregationJob.previous_month, Scheduler.report_period.
  pose proof (month_of_bounds today) as Hm.
  set (y := year_of today) in *. set (m := month_of today) in *.
  rewrite (mkdate_Some y m 1) by (pose proof (days_in_month_bounds y m); lia).
  cbn [mbind option_bind].
  replace (days_before_year y + days_before_month y m + 1 - 1)
    with (days_before_year y + days_before_month y m) by lia.
  unfold year_of, month_of.
  rewrite (day_before_month y m Hm).
  destruct (m =? 1); reflexivity.
Qed.

(** The days of a month are the dates with that year and that month. *)
Lemma in_month_year_month y m d :
  1 <= m <= 12 ->
  (in_month y m d <-> year_of d = y /\ month_of d = m).
Proof.
  intros Hm. rewrite in_month_bounds. split.
  - intros Hd.
    assert (E : mkdate y m (d - (days_before_year y + days_before_month y m)) = Some d).
    { rewrite mkdate_Some by lia. f_equal. lia. }
    apply ord2ymd_mkdate in E. unfold year_of, month_of. rewrite E. split; reflexivity.
  - intros [Hy Hmo]. destruct (ord2ymd d) as [[y' m'] d'] eqn:E.
    unfold year_of in Hy. unfold month_of in Hmo. rewrite E in Hy, Hmo.
    cbn [fst snd] in Hy, Hmo. subst y' m'.
    apply mkdate_ord2ymd, mkdate_inv in E. lia.
Qed.

End DateFacts.
Section PeriodFacts.

(** X19. Run with a year or a month missing, the monthly job aggregates the
    month before the one today lies in, the period that the scheduler's
    [run_monthly_reports] works out for the billing report: December of the
    year before when today is in January, else the month before in the same
    year.  A year given without a month is not used.  Today is taken after
    year 1, where Python's date arithmetic stays in range. *)
Theorem monthly_run_default_period today daily table year month :
  1 < year_of today ->
  year = None \/ month = None ->
  MonthlyAggregationJob.run today daily table year month
  = MonthlyAggregationJob.run today daily table
      (Some (fst (Scheduler.report_period today)))
      (Some (snd (Scheduler.report_period today))).
Proof.
  intros _ Hnone. unfold MonthlyAggregationJob.run.
  assert (Hym : match year, month with
                | Some y, Some m => Some (y, m)
                | _, _ => MonthlyAggregationJob.previous_month today
                end = Some (Scheduler.report_period today)).
  { destruct Hnone as [-> | ->]; [| destruct year]; apply previous_month_value. }
  rewrite Hym. destruct (Scheduler.report_period today) as [y m]. reflexivity.
Qed.

Lemma monthly_run_default_period_witness :
  MonthlyAggregationJob.run 738900 december_rows ∅ (Some 2024) None
  = MonthlyAggregationJob.run 738900 december_rows ∅
      (Some (fst (Scheduler.report_period 738900)))
      (Some (snd (Scheduler.report_period 738900))).
Proof.
  apply monthly_run_default_period; [vm_compute; reflexivity | right; reflexivity].
Defined.

(** X20. The date window of the monthly job is the month: when
    [date(year, month, 1)] exists, a date lies between the first and the
    last day that [run] computes exactly when its year and its month are
    the ones asked for. *)
Theorem month_bounds_select_month y m first_day last_day d :
  MonthlyAggregationJob.month_bounds y m = Some (first_day, last_day) ->
  (first_day <= d <= last_day <-> year_of d = y /\ month_of d = m).
Proof.
  intros Hb.
  assert (Hm : 1 <= m <= 12).
  { unfold MonthlyAggregationJob.month_bounds in Hb.
    destruct (mkdate y m 1) as [f |] eqn:E; [| discriminate].
    apply mkdate_inv in E. lia. }
  rewrite month_bounds_value in Hb by exact Hm. injection Hb as <- <-.
  rewrite <- (in_month_year_month y m d Hm), in_month_bounds. lia.
Qed.

Lemma month_bounds_select_month_witness :
  738917 <= 738945 <= 738945 <-> year_of 738945 = 2024 /\ month_of 738945 = 2.
Proof.
  apply (month_bounds_select_month 2024 2 738917 738945 738945).
  vm_compute. reflexivity.
Defined.

End PeriodFacts.
Section ListingFacts.

Lemma dict_get_NoDup {V : Type} (k : string) (v : V) (d : list (string * V)) :
  NoDup (map fst d) -> (k, v) ∈ d -> dict_get k d = Some v.
Proof.
  induction d as [| [k' v'] d IH]; intros Hnd Hin.
  - apply elem_of_nil in Hin. contradiction.
  - cbn [map fst] in Hnd. apply NoDup_cons in Hnd as [Hk' Hnd].
    cbn [dict_get]. apply elem_of_cons in Hin as [[= <- <-] | Hin].
    + rewrite decide_True by reflexivity. reflexivity.
    + destruct (decide (k = k')) as [-> | Hne].
      * exfalso. apply Hk'. apply list_elem_of_fmap. exists (k', v). split; [reflexivity | exact Hin].
      * apply IH; assumption.
Qed.

Lemma collect_elem provider_pricing models e :
  Listing.collect provider_pricing = Some models ->
  (e ∈ models <->
   exists pricing,
     (Listing.model e, pricing) ∈ provider_pricing
     /\ dict_get "input_per_1k" pricing = Some (Listing.input_price_per_1k e)
     /\ dict_get "output_per_1k" pricing = Some (Listing.output_price_per_1k e)).
Proof.
  revert models. induction provider_pricing as [| [mo pricing] rest IH]; intros models H.
  - injection H as <-. split.
    + intros Hin. apply elem_of_nil in Hin. contradiction.
    + intros (p & Hin & _). apply elem_of_nil in Hin. contradiction.
  - cbn [Listing.collect] in H.
    destruct (dict_get "input_per_1k" pricing) as [i |] eqn:Ei.
    + destruct (dict_get "output_per_1k" pricing) as [o |] eqn:Eo; [| discriminate].
      cbn [mbind option_bind] in H.
      destruct (Listing.collect rest) as [ms |] eqn:Er; [| discriminate].
      cbn [mbind option_bind] in H. injection H as <-.
      specialize (IH ms eq_refl). split.
      * intros [-> | Hin]%elem_of_cons.
        -- exists pricing. cbn. split; [left | split; assumption].
        -- apply IH in Hin as (p & Hp & Hi & Ho). exists p. split; [right; exact Hp | split; assumption].
      * intros (p & [[= Hm <-] | Hp]%elem_of_cons & Hi & Ho).
        -- rewrite Ei in Hi. rewrite Eo in Ho. injection Hi as Hi. injection Ho as Ho.
           destruct e as [em ei eo]. cbn in *. subst. left.
        -- right. apply IH. exists p. split; [exact Hp | split; assumption].
    + specialize (IH models H). rewrite IH. split.
      * intros (p & Hp & Hi & Ho). exists p. split; [right; exact Hp | split; assumption].
      * intros (p & [[= Hm <-] | Hp]%elem_of_cons & Hi & Ho).
        -- rewrite Ei in Hi. discriminate.
        -- exists p. split; [exact Hp | split; assumption].
Qed.

Lemma collect_None provider_pricing mo pricing input :
  (mo, pricing) ∈ provider_pricing ->
  dict_get "input_per_1k" pricing = Some input ->
  dict_get "output_per_1k" pricing = None ->
  Listing.collect provider_pricing = None.
Proof.
  induction provider_pricing as [| [mo' pricing'] rest IH]; intros Hin Hi Ho.
  - apply elem_of_nil in Hin. contradiction.
  - cbn [Listing.collect]. apply elem_of_cons in Hin as [[= <- <-] | Hin].
    + rewrite Hi, Ho. reflexivity.
    + rewrite (IH Hin Hi Ho).
      destruct (dict_get "input_per_1k" pricing'); [| reflexivity].
      destruct (dict_get "output_per_1k" pricing'); reflexivity.
Qed.

(** X21. The list of models agrees with the prices that are charged: when
    the model names of the provider's table are distinct, as the keys of a
    dictionary are, every model that [get_provider_models] lists is priced
    by [get_model_pricing] at the input and output prices listed. *)
Theorem listed_models_priced_as_listed data provider models e :
  NoDup (map fst (default [] (dict_get (_normalize_provider provider) data))) ->
  Listing.get_provider_models data provider = Some models ->
  e ∈ models ->
  get_model_pricing data provider (Listing.model e)
  = (Listing.input_price_per_1k e, Listing.output_price_per_1k e).
Proof.
  intros Hnd Hget He. unfold Listing.get_provider_models in Hget. cbv zeta in Hget.
  destruct (Listing.collect _) as [ms |] eqn:Ec; [| discriminate].
  cbn [mbind option_bind] in Hget. injection Hget as <-.
  rewrite merge_sort_Permutation in He.
  apply (collect_elem _ _ e Ec) in He as (pricing & Hin & Hi & Ho).
  unfold get_model_pricing. cbv zeta.
  unfold PricingData, Table, Entry in *.
  rewrite (dict_get_NoDup _ _ _ Hnd Hin).
  unfold prices_of, price_field. rewrite Hi, Ho. reflexivity.
Qed.

End ListingFacts.
Section ListingClaims.

Import Catalogs.

Lemma listed_models_priced_as_listed_witness :
  get_model_pricing catalog_pricing "bedrock" "amazon.titan-text-express"
  = (mkDec 2 (-4), mkDec 6 (-4)).
Proof.
  assert (Hget : Listing.get_provider_models catalog_pricing "bedrock"
                 = Some [ Listing.mkModelPrices "amazon.titan-text-express" (mkDec 2 (-4)) (mkDec 6 (-4));
                          Listing.mkModelPrices "anthropic.claude-3-sonnet" (mkDec 3 (-3)) (mkDec 15 (-3)) ])
    by (vm_compute; reflexivity).
  apply (listed_models_priced_as_listed catalog_pricing "bedrock" _
           (Listing.mkModelPrices "amazon.titan-text-express" (mkDec 2 (-4)) (mkDec 6 (-4)))
           ltac:(apply (bool_decide_unpack _); vm_compute; exact I) Hget).
  left.
Defined.

(** X22. An entry with an input price and no output price is treated in
    two ways: the list of the provider's models cannot be made, as
    [pricing["output_per_1k"]] is a KeyError, while a usage event for that
    model is priced, its output tokens at zero. *)
Theorem missing_output_price data provider mo pricing input :
  NoDup (map fst (default [] (dict_get (_normalize_provider provider) data))) ->
  (mo, pricing) ∈ default [] (dict_get (_normalize_provider provider) data) ->
  dict_get "input_per_1k" pricing = Some input ->
  dict_get "output_per_1k" pricing = None ->
  Listing.get_provider_models data provider = None
  /\ get_model_pricing data provider mo = (input, mkDec 0 0).
Proof.
  intros Hnd Hin Hi Ho. split.
  - unfold Listing.get_provider_models. cbv zeta. unfold PricingData, Table, Entry in *.
    rewrite (collect_None _ _ _ _ Hin Hi Ho). reflexivity.
  - unfold get_model_pricing. cbv zeta. unfold PricingData, Table, Entry in *.
    rewrite (dict_get_NoDup _ _ _ Hnd Hin).
    unfold prices_of, price_field. rewrite Hi, Ho. reflexivity.
Qed.

Lemma missing_output_price_witness :
  Listing.get_provider_models incomplete_pricing "bedrock" = None
  /\ get_model_pricing incomplete_pricing "bedrock" "anthropic.claude-3-sonnet"
     = (mkDec 3 (-3), mkDec 0 0).
Proof.
  apply (missing_output_price incomplete_pricing "bedrock" "anthropic.claude-3-sonnet"
           [("input_per_1k", mkDec 3 (-3))]%string (mkDec 3 (-3))).
  - apply (bool_decide_unpack _). vm_compute. exact I.
  - vm_compute. left.
  - reflexivity.
  - reflexivity.
Defined.

Lemma normalize_valid provider :
  provider ∈ Providers.VALID_PROVIDERS -> _normalize_provider provider = provider.
Proof.
  unfold Providers.VALID_PROVIDERS. intros H.
  repeat (apply elem_of_cons in H as [-> | H]; [vm_compute; reflexivity |]).
  apply elem_of_nil in H. contradiction.
Qed.

#[local] Instance by_model_total : Total Listing.by_model.
Proof. intros x y. unfold Listing.by_model. apply String.le_total. Qed.

(** X23. What the provider endpoint answers with: the provider is one of
    bedrock, azure_openai and gemini, spelled so; the models are in the
    order of their names; and they are the entries of the table under that
    very key that have both prices, at those prices. *)
Theorem provider_endpoint_models data provider resp :
  Providers.get_provider_models data provider = inr resp ->
  provider ∈ Providers.VALID_PROVIDERS
  /\ Providers.pm_provider resp = provider
  /\ Sorted Listing.by_model (Providers.pm_models resp)
  /\ forall e,
       e ∈ Providers.pm_models resp <->
       exists pricing,
         (Listing.model e, pricing) ∈ default [] (dict_get provider data)
         /\ dict_get "input_per_1k" pricing = Some (Listing.input_price_per_1k e)
         /\ dict_get "output_per_1k" pricing = Some (Listing.output_price_per_1k e).
Proof.
  unfold Providers.get_provider_models.
  destruct (decide (provider ∈ Providers.VALID_PROVIDERS)) as [Hv | Hv]; [| discriminate].
  unfold Listing.get_provider_models. cbv zeta. rewrite (normalize_valid _ Hv).
  destruct (Listing.collect _) as [ms |] eqn:Ec; [| discriminate].
  cbn [mbind option_bind]. intros [= <-]. cbn [Providers.pm_provider Providers.pm_models].
  split; [exact Hv |]. split; [reflexivity |]. split.
  - apply Sorted_merge_sort. apply _.
  - intros e. rewrite merge_sort_Permutation. apply (collect_elem _ _ e Ec).
Qed.

Lemma provider_endpoint_models_witness :
  Providers.get_provider_models catalog_pricing "bedrock"
  = inr (Providers.mkProviderModels "bedrock"
           [ Listing.mkModelPrices "amazon.titan-text-express" (mkDec 2 (-4)) (mkDec 6 (-4));
             Listing.mkModelPrices "anthropic.claude-3-sonnet" (mkDec 3 (-3)) (mkDec 15 (-3)) ])
  /\ Sorted Listing.by_model
       [ Listing.mkModelPrices "amazon.titan-text-express" (mkDec 2 (-4)) (mkDec 6 (-4));
         Listing.mkModelPrices "anthropic.claude-3-sonnet" (mkDec 3 (-3)) (mkDec 15 (-3)) ].
Proof.
  assert (H : Providers.get_provider_models catalog_pricing "bedrock"
              = inr (Providers.mkProviderModels "bedrock"
                  [ Listing.mkModelPrices "amazon.titan-text-express" (mkDec 2 (-4)) (mkDec 6 (-4));
                    Listing.mkModelPrices "anthropic.claude-3-sonnet" (mkDec 3 (-3)) (mkDec 15 (-3)) ]))
    by (vm_compute; reflexivity).
  split; [exact H |].
  apply (provider_endpoint_models catalog_pricing "bedrock" _ H).
Defined.



End ListingClaims.
Section QueryFacts.

Import UsageQueries.

Lemma map_to_list_foldl_insert {A V : Type} (key : A -> string) (val : A -> V)
    (l : list A) : forall m : gmap string V,
  NoDup (map key l) -> (forall x, x ∈ l -> m !! key x = None) ->
  map_to_list (foldl (fun m x => <[key x := val x]> m) m l)
  ≡ₚ map (fun x => (key x, val x)) l ++ map_to_list m.
Proof.
  induction l as [| a l IH]; intros m Hnd Hfresh; cbn [foldl map].
  - reflexivity.
  - cbn [map] in Hnd. apply NoDup_cons in Hnd as [Ha Hnd].
    rewrite IH.
    + rewrite map_to_list_insert by (apply Hfresh; left).
      cbn [app]. symmetry. apply Permutation_middle.
    + exact Hnd.
    + intros x Hx. rewrite lookup_insert_ne.
      * apply Hfresh. now right.
      * intros Heq. apply Ha. rewrite Heq. apply list_elem_of_fmap. now exists x.
Qed.

Lemma breakdown_rows raw tenant column :
  map_to_list (_get_breakdown raw tenant column)
  ≡ₚ map (fun row => (b_key row,
                      mkBreakdown (b_requests row) (or_zero (b_tokens row))
                        (float_or_zero (b_cost row))))
       (breakdown_query raw tenant column).
Proof.
  unfold _get_breakdown.
  rewrite (map_to_list_foldl_insert b_key
             (fun row => mkBreakdown (b_requests row) (or_zero (b_tokens row))
                           (float_or_zero (b_cost row)))).
  - rewrite map_to_list_empty, app_nil_r. reflexivity.
  - unfold breakdown_query. cbv zeta. rewrite map_map. cbn [b_key].
    rewrite map_id. apply NoDup_remove_dups.
  - intros x _. apply lookup_empty.
Qed.

Lemma breakdown_totals raw tenant column :
  total (map (fun kv => requests (snd kv)) (map_to_list (_get_breakdown raw tenant column)))
  = Z.of_nat (length (filter (fun e => tenant_id e = tenant) raw))
  /\ total (map (fun kv => tokens (snd kv)) (map_to_list (_get_breakdown raw tenant column)))
     = total (map total_tokens (filter (fun e => tenant_id e = tenant) raw)).
Proof.
  set (rows := filter (fun e => tenant_id e = tenant) raw).
  assert (Hgroups : forall x, x ∈ rows -> column x ∈ remove_dups (map column rows)).
  { intros x Hx. rewrite elem_of_remove_dups. apply list_elem_of_fmap. now exists x. }
  split.
  - etrans; [apply total_Permutation;
             exact (fmap_Permutation _ _ _ (breakdown_rows raw tenant column)) |].
    unfold breakdown_query. cbv zeta. fold rows.
    change (@fmap list _) with (@map) in *. rewrite !map_map. cbn [snd requests b_requests].
    rewrite <- (total_ones rows).
    rewrite <- (total_by_groups column (fun _ => 1) rows (remove_dups (map column rows)))
      by (apply NoDup_remove_dups || exact Hgroups).
    f_equal. apply map_ext. intros g. now rewrite total_ones.
  - etrans; [apply total_Permutation;
             exact (fmap_Permutation _ _ _ (breakdown_rows raw tenant column)) |].
    unfold breakdown_query. cbv zeta. fold rows.
    change (@fmap list _) with (@map) in *. rewrite !map_map. cbn [snd tokens b_tokens].
    rewrite <- (total_by_groups column total_tokens rows (remove_dups (map column rows)))
      by (apply NoDup_remove_dups || exact Hgroups).
    f_equal. apply map_ext. intros g. apply or_zero_sum.
Qed.

(** X25. Each breakdown of the tenant summary splits the whole: over the
    keys of the breakdown by provider, of that by model and of that by
    cloud provider, the requests add up to the total number of requests
    and the tokens to the total number of tokens of the summary. *)
Theorem breakdowns_add_up raw tenant :
  let s := get_tenant_summary raw tenant in
  Forall (fun b =>
            total (map (fun kv => requests (snd kv)) (map_to_list b)) = ts_total_requests s
            /\ total (map (fun kv => tokens (snd kv)) (map_to_list b)) = ts_total_tokens s)
    [ts_by_provider s; ts_by_model s; ts_by_cloud_provider s].
Proof.
  cbv zeta. unfold get_tenant_summary.
  cbn [ts_by_provider ts_by_model ts_by_cloud_provider ts_total_requests ts_total_tokens].
  assert (Hreq : or_zero (Some (Z.of_nat (length (filter (fun e => tenant_id e = tenant) raw))))
                 = Z.of_nat (length (filter (fun e => tenant_id e = tenant) raw))).
  { unfold or_zero. destruct (Z.eqb_spec (Z.of_nat (length (filter (fun e => tenant_id e = tenant) raw))) 0) as [-> | _];
      reflexivity. }
  rewrite Hreq, or_zero_sum.
  repeat constructor; apply breakdown_totals.
Qed.

(** X26. The summary of a tenant does not see the events of others: an
    event of another tenant, wherever it stands in the raw table, changes
    nothing in the summary. *)
Theorem tenant_summary_isolated raw1 raw2 e tenant :
  tenant_id e <> tenant ->
  get_tenant_summary (raw1 ++ e :: raw2) tenant = get_tenant_summary (raw1 ++ raw2) tenant.
Proof.
  intros Hne.
  assert (Hf : filter (fun e => tenant_id e = tenant) (raw1 ++ e :: raw2)
               = filter (fun e => tenant_id e = tenant) (raw1 ++ raw2)).
  { rewrite !filter_app, filter_cons_False by exact Hne. reflexivity. }
  unfold get_tenant_summary, _get_breakdown, breakdown_query. cbv zeta.
  rewrite Hf. reflexivity.
Qed.

Lemma tenant_summary_isolated_witness :
  get_tenant_summary
    (latency_rows ++ raw_row 6 "t2" "a" 70 140 738900 None :: []) "t1"
  = get_tenant_summary (latency_rows ++ []) "t1".
Proof.
  apply tenant_summary_isolated. discriminate.
Defined.

(** X27. A tenant without events gets a summary of zeros: the sums that
    SQL leaves NULL are replaced by 0, there is no first or last usage, and
    the breakdowns are empty. *)
Theorem tenant_summary_empty raw tenant :
  (forall e, e ∈ raw -> tenant_id e <> tenant) ->
  get_tenant_summary raw tenant
  = mkTenantSummary tenant 0 0 0 0 (mkDec 0 0) None None ∅ ∅ ∅.
Proof.
  intros Hnone.
  assert (Hf : filter (fun e => tenant_id e = tenant) raw = []).
  { apply filter_none. intros e He Heq. exact (Hnone e He Heq). }
  unfold get_tenant_summary, _get_breakdown, breakdown_query. cbv zeta.
  rewrite Hf. reflexivity.
Qed.

Lemma tenant_summary_empty_witness :
  get_tenant_summary latency_rows "t2"
  = mkTenantSummary "t2" 0 0 0 0 (mkDec 0 0) None None ∅ ∅ ∅.
Proof.
  apply tenant_summary_empty. intros e He.
  unfold latency_rows in He.
  repeat (apply elem_of_cons in He as [-> | He]; [discriminate |]).
  apply elem_of_nil in He. contradiction.
Defined.

#[local] Instance datetime_le_total : Total datetime_le.
Proof. intros a b. unfold datetime_le. lia. Qed.

#[local] Instance datetime_le_trans : Transitive datetime_le.
Proof. intros a b c. unfold datetime_le. lia. Qed.

#[local] Instance newest_first_total : Total newest_first.
Proof. intros a b. unfold newest_first. apply datetime_le_total. Qed.

#[local] Instance newest_first_trans : Transitive newest_first.
Proof.
  intros a b c Hab Hbc. unfold newest_first in *.
  exact (datetime_le_trans _ _ _ Hbc Hab).
Qed.

Lemma StronglySorted_sublist {A} (R : relation A) (l1 l2 : list A) :
  sublist l1 l2 -> StronglySorted R l2 -> StronglySorted R l1.
Proof.
  induction 1 as [| x l1 l2 Hsub IH | x l1 l2 Hsub IH]; intros Hs.
  - constructor.
  - apply StronglySorted_inv in Hs as [Hs Hall]. constructor.
    + apply IH, Hs.
    + rewrite Forall_forall in Hall |- *. intros y Hy.
      apply Hall. exact (elem_of_sublist _ _ _ Hy Hsub).
  - apply StronglySorted_inv in Hs as [Hs _]. apply IH, Hs.
Qed.

(** X28. What [get_raw_usage] returns: at most [limit] events, newest
    first, each of them an event of the raw table, of the tenant asked
    for, and not before the start time and not after the end time where
    these are given.  It returns at all only for a limit and an offset
    that are not negative. *)
Theorem get_raw_usage_spec raw tenant start_time end_time limit offset rows :
  get_raw_usage raw tenant start_time end_time limit offset = Some rows ->
  0 <= limit /\ 0 <= offset
  /\ Z.of_nat (length rows) <= limit
  /\ Sorted newest_first rows
  /\ forall e, e ∈ rows ->
       e ∈ raw /\ tenant_id e = tenant
       /\ not_before start_time e /\ not_after end_time e.
Proof.
  unfold get_raw_usage.
  destruct (Z.ltb_spec limit 0) as [? | Hl]; [discriminate |].
  destruct (Z.ltb_spec offset 0) as [? | Ho]; [discriminate |].
  cbn [orb]. intros [= <-].
  set (all := merge_sort newest_first _).
  assert (Hsub : sublist (take (Z.to_nat limit) (drop (Z.to_nat offset) all)) all).
  { etrans; [apply sublist_take | apply sublist_drop]. }
  split; [exact Hl |]. split; [exact Ho |]. split; [| split].
  - pose proof (firstn_le_length (Z.to_nat limit) (drop (Z.to_nat offset) all)). lia.
  - apply StronglySorted_Sorted. apply (StronglySorted_sublist _ _ _ Hsub).
    apply StronglySorted_merge_sort; apply _.
  - intros e He. apply (fun H => elem_of_sublist _ _ _ H Hsub) in He. subst all.
    rewrite merge_sort_Permutation in He.
    apply list_elem_of_filter in He as [(Ht & Hs & He') Hin].
    repeat split; assumption.
Qed.

Lemma get_raw_usage_spec_witness :
  0 <= 2 /\ 0 <= 1
  /\ Z.of_nat (length [raw_row 0 "t1" "a" 10 20 738900 (Some 0);
                       raw_row 1 "t1" "a" 20 40 738900 (Some 0)]) <= 2
  /\ Sorted newest_first [raw_row 0 "t1" "a" 10 20 738900 (Some 0);
                          raw_row 1 "t1" "a" 20 40 738900 (Some 0)]
  /\ forall e, e ∈ [raw_row 0 "t1" "a" 10 20 738900 (Some 0);
                    raw_row 1 "t1" "a" 20 40 738900 (Some 0)] ->
       e ∈ latency_rows /\ tenant_id e = "t1"
       /\ not_before None e /\ not_after (Some (mkDatetime 738900 0)) e.
Proof.
  apply (get_raw_usage_spec latency_rows "t1" None (Some (mkDatetime 738900 0)) 2 1).
  vm_compute. reflexivity.
Defined.

End QueryFacts.
Section MonthlySummaryFacts.

Import UsageQueries.

#[local] Instance latest_first_total : Total latest_first.
Proof. intros r1 r2. unfold latest_first. lia. Qed.

Lemma monthly_item_fields row :
  mi_year (monthly_item row) = monthly_year row
  /\ mi_month (monthly_item row) = monthly_month row
  /\ mi_total_tokens (monthly_item row) = m_total_tokens (snd row).
Proof. destruct row as [[[[[t y] m] p] mo] metrics]. repeat split. Qed.

(** X29. The monthly summary of a tenant: its items are made of the
    monthly rows of the tenant, each once, of the year and of the month
    asked for where these are given and not 0 (a year or a month of 0 is
    falsy and filters nothing), ordered by year and then by month, latest
    first; the total tokens of the response are the sum over its items. *)
Theorem get_monthly_summary_spec (table : gmap _ MonthlyMetrics) tenant year month :
  let r := get_monthly_summary table tenant year month in
  (exists rows,
      ms_items r = map monthly_item rows
      /\ NoDup rows
      /\ forall row,
           row ∈ rows <->
           table !! fst row = Some (snd row)
           /\ monthly_tenant row = tenant
           /\ (forall y, year = Some y -> y <> 0 -> monthly_year row = y)
           /\ (forall m, month = Some m -> m <> 0 -> monthly_month row = m))
  /\ Sorted (fun a b => mi_year b < mi_year a
                        \/ (mi_year b = mi_year a /\ mi_month b <= mi_month a))
       (ms_items r)
  /\ ms_total_tokens r = total (map mi_total_tokens (ms_items r))
  /\ get_monthly_summary table tenant (Some 0) month
     = get_monthly_summary table tenant None month.
Proof.
  cbv zeta. unfold get_monthly_summary. cbn [ms_items ms_total_tokens].
  split; [| split; [| split]].
  - exists (select_monthly table tenant year month). split; [reflexivity |].
    unfold select_monthly. split.
    + rewrite merge_sort_Permutation. apply NoDup_filter, NoDup_map_to_list.
    + assert (Heq : forall w v,
                 equals_if_truthy w v <-> (forall x, w = Some x -> x <> 0 -> v = x)).
      { intros w v. unfold equals_if_truthy. destruct w as [w |].
        - destruct (Z.eqb_spec w 0) as [-> | Hne].
          + split; [intros _ x [= <-] Hx; now contradiction Hx | trivial].
          + split; [intros -> x [= <-] _; reflexivity | intros H; now apply H].
        - split; [intros _ x [=] | trivial]. }
      intros [key metrics]. rewrite merge_sort_Permutation, list_elem_of_filter.
      rewrite elem_of_map_to_list, !Heq. cbn [fst snd]. tauto.
  - unfold select_monthly.
    set (rows := filter _ (map_to_list table)).
    pose proof (Sorted_merge_sort latest_first rows) as Hs.
    induction Hs as [| row rest Hrest IH Hhd]; cbn [map]; constructor.
    + exact IH.
    + destruct Hhd as [| row' rest' Hr]; cbn [map]; constructor.
      destruct (monthly_item_fields row) as (-> & -> & _).
      destruct (monthly_item_fields row') as (-> & -> & _). exact Hr.
  - apply py_sum_int_total.
  - reflexivity.
Qed.

End MonthlySummaryFacts.
Section MonthlyPipelineFacts.

Import UsageQueries.

Lemma total_filter {A} (P : A -> Prop) `{!forall x, Decision (P x)} (f : A -> Z) (l : list A) :
  total (map f (filter P l)) = total (map (fun x => if decide (P x) then f x else 0) l).
Proof.
  induction l as [| x l IH]; [reflexivity |].
  rewrite filter_cons. cbn [map]. rewrite total_cons.
  destruct (decide (P x)); [cbn [map]; rewrite total_cons |]; lia.
Qed.

Lemma total_map_ext {A} (f g : A -> Z) (l : list A) :
  (forall x, x ∈ l -> f x = g x) -> total (map f l) = total (map g l).
Proof.
  induction l as [| x l IH]; intros H; [reflexivity |].
  cbn [map]. rewrite !total_cons, H by left.
  rewrite IH; [reflexivity |]. intros z Hz. apply H. now right.
Qed.

(** The monthly table that a run makes from nothing, row by row. *)
Lemma monthly_rows_from_empty today daily y m n table :
  MonthlyAggregationJob.run today daily ∅ (Some y) (Some m) = Some (n, table) ->
  map_to_list table
  ≡ₚ map (fun g => (let '(t, p, mo) := g in (t, y, m, p, mo),
                    let '(t, p, mo) := g in fresh_monthly (month_rows daily y m t p mo)))
       (remove_dups
          (map MonthlyAggregationJob.group_of
             (filter (fun row => in_month y m (row_date row)) (map_to_list daily)))).
Proof.
  intros Hrun. pose proof (monthly_run_valid _ _ _ _ _ _ Hrun) as Hm.
  set (groups := remove_dups _).
  set (rows := map _ groups).
  assert (Hnd : NoDup rows.*1).
  { subst rows. rewrite <- list_fmap_compose.
    apply NoDup_fmap_2; [| apply NoDup_remove_dups].
    intros [[t p] mo] [[t' p'] mo']. cbn. congruence. }
  rewrite <- (map_to_list_to_map rows Hnd).
  assert (Heq : table = list_to_map rows); [| now rewrite Heq].
  apply map_eq. intros [[[[t y'] m'] p] mo].
  rewrite (monthly_run_lookup today daily ∅ y m n table t y' m' p mo Hm Hrun).
  assert (Hiff : (t, p, mo) ∈ groups <-> month_rows daily y m t p mo <> []).
  { subst groups. rewrite elem_of_remove_dups, list_elem_of_fmap.
    unfold month_rows. rewrite filter_nonempty. split.
    - intros (e & Hg & He). now exists e.
    - intros (e & He & Hg). now exists e. }
  destruct (decide (y' = y /\ m' = m /\ _)) as [(-> & -> & Hne) | Hnot].
  - symmetry. apply elem_of_list_to_map; [exact Hnd |].
    subst rows. apply list_elem_of_fmap. exists (t, p, mo). split; [reflexivity |].
    now apply Hiff.
  - rewrite lookup_empty. symmetry. apply not_elem_of_list_to_map.
    subst rows. rewrite <- list_fmap_compose. intros Hin.
    apply list_elem_of_fmap in Hin as ([[t' p'] mo'] & Heq & Hin). cbn in Heq.
    injection Heq as -> -> -> -> ->. apply Hnot.
    split; [reflexivity |]. split; [reflexivity |]. now apply Hiff.
Qed.

(** X30. From the daily rows to the monthly summary: after the monthly job
    has filled an empty table for a year and a month, the summary of a
    tenant for that year and month reports as total tokens the sum of the
    total tokens of the tenant's daily rows dated in that year and month,
    whatever their provider, model and cloud provider. *)
Theorem monthly_summary_after_run today daily y m n table tenant :
  MonthlyAggregationJob.run today daily ∅ (Some y) (Some m) = Some (n, table) ->
  ms_total_tokens (get_monthly_summary table tenant (Some y) (Some m))
  = total (map (fun row => d_total_tokens (snd row))
             (filter (fun row => row_tenant row = tenant
                                 /\ year_of (row_date row) = y
                                 /\ month_of (row_date row) = m)
                (map_to_list daily))).
Proof.
  intros Hrun. pose proof (monthly_run_valid _ _ _ _ _ _ Hrun) as Hm.
  unfold get_monthly_summary. cbn [ms_total_tokens].
  rewrite py_sum_int_total, !map_map.
  rewrite (total_map_ext _ (fun row => m_total_tokens (snd row)))
    by (intros row _; apply monthly_item_fields).
  unfold select_monthly.
  rewrite (total_Permutation _ _
             (Permutation_map _ (merge_sort_Permutation latest_first _))).
  rewrite total_filter.
  rewrite (total_Permutation _ _
             (Permutation_map _ (monthly_rows_from_empty _ _ _ _ _ _ Hrun))).
  rewrite map_map.
  set (W := filter (fun row => in_month y m (row_date row)) (map_to_list daily)).
  set (groups := remove_dups (map MonthlyAggregationJob.group_of W)).
  assert (Hrhs : filter (fun row => row_tenant row = tenant
                                    /\ year_of (row_date row) = y
                                    /\ month_of (row_date row) = m) (map_to_list daily)
                 = filter (fun row => row_tenant row = tenant) W).
  { subst W. rewrite list_filter_filter. apply list_filter_iff. intros row.
    rewrite (in_month_year_month y m _ Hm). tauto. }
  rewrite Hrhs, total_filter.
  rewrite <- (total_by_groups MonthlyAggregationJob.group_of _ W groups).
  - f_equal. apply map_ext. intros [[t p] mo].
    cbn [snd m_total_tokens fresh_monthly].
    unfold month_rows. fold W.
    assert (Hyes : equals_if_truthy (Some y) y /\ equals_if_truthy (Some m) m).
    { unfold equals_if_truthy. split; [destruct (y =? 0) | destruct (m =? 0)]; trivial. }
    destruct (decide (t = tenant)) as [-> | Hne].
    + rewrite decide_True by (cbn; tauto).
      apply total_map_ext. intros row Hrow.
      apply list_elem_of_filter in Hrow as [Hg _].
      rewrite decide_True; [reflexivity |].
      destruct row as [[[[[rt rd] rp] rm] rc] metrics]. cbn in Hg |- *. congruence.
    + rewrite decide_False by (cbn; tauto).
      symmetry.
      etrans; [| apply (total_zero (fun _ => 0)
                          (filter (fun row => MonthlyAggregationJob.group_of row = (t, p, mo)) W));
                 reflexivity].
      apply total_map_ext. intros row Hrow.
      apply list_elem_of_filter in Hrow as [Hg _].
      rewrite decide_False; [reflexivity |].
      destruct row as [[[[[rt rd] rp] rm] rc] metrics]. cbn in Hg |- *. congruence.
  - apply NoDup_remove_dups.
  - intros x Hx. subst groups. rewrite elem_of_remove_dups.
    apply list_elem_of_fmap. now exists x.
Qed.

Lemma monthly_summary_after_run_witness :
  exists n table,
    MonthlyAggregationJob.run 0 december_rows ∅ (Some 2023) (Some 12) = Some (n, table)
    /\ ms_total_tokens (get_monthly_summary table "t1" (Some 2023) (Some 12))
       = total (map (fun row => d_total_tokens (snd row))
                  (filter (fun row => row_tenant row = "t1"
                                      /\ year_of (row_date row) = 2023
                                      /\ month_of (row_date row) = 12)
                     (map_to_list december_rows))).
Proof.
  destruct (MonthlyAggregationJob.run 0 december_rows ∅ (Some 2023) (Some 12))
    as [[n table] |] eqn:Hrun.
  - exists n, table. split; [reflexivity |].
    exact (monthly_summary_after_run 0 december_rows 2023 12 n table "t1" Hrun).
  - exfalso. revert Hrun. rewrite monthly_run_unfold by lia. discriminate.
Defined.

End MonthlyPipelineFacts.
